(** * dso-data-schema-randomizer: a shallow embedding of [src/main.py]

    The program reads a JSON, XML or CSV document and replaces every name
    and every leaf value by a value drawn from Faker, keeping the shape.
    This file embeds [DataSchemaRandomizer.__init__],
    [randomize_json_schema] (with its closure [randomize_value]),
    [randomize_xml_schema] (with its closure [randomize_element]) and
    [randomize_csv_schema], and states the properties of the specification
    over these definitions. *)

From Stdlib Require Import ZArith String Ascii List Lia Bool.
From Stdlib Require Import Floats.PrimFloat.
From stdpp Require Import base list.

Import ListNotations.
Local Open Scope string_scope.
Local Open Scope list_scope.

(** ** Python values

    A value as [json.loads] builds it.  Strings are byte strings, integers
    are unbounded, a dict keeps its insertion order and is an association
    list in that order. *)

#[warnings="-register-all"]
Inductive pyvalue : Type :=
| PyStr (s : string)
| PyInt (n : Z)
| PyFloat (f : float)
| PyBool (b : bool)
| PyNone
| PyList (items : list pyvalue)
| PyDict (items : list (string * pyvalue)).

(** The classes the program tests with [isinstance]. *)
Inductive pytype : Type := Tstr | Tint | Tfloat | Tbool | Tlist | Tdict.

(** [isinstance(value, cls)].  In Python [bool] is a subclass of [int], so
    [isinstance(True, int)] holds. *)
Definition isinstance (value : pyvalue) (cls : pytype) : bool :=
  match cls, value with
  | Tstr, PyStr _ => true
  | Tint, PyInt _ => true
  | Tint, PyBool _ => true
  | Tfloat, PyFloat _ => true
  | Tbool, PyBool _ => true
  | Tlist, PyList _ => true
  | Tdict, PyDict _ => true
  | _, _ => false
  end.

(** [d[k] = v] on an insertion-ordered dict: an existing key keeps its
    place and takes the new value, a new key goes to the end. *)
Fixpoint dict_set {V : Type} (k : string) (v : V) (d : list (string * V))
  : list (string * V) :=
  match d with
  | [] => [(k, v)]
  | (k', v') :: rest =>
      if String.eqb k' k then (k', v) :: rest
      else (k', v') :: dict_set k v rest
  end.

Definition dict_keys {V : Type} (d : list (string * V)) : list string :=
  map fst d.

Definition dict_values {V : Type} (d : list (string * V)) : list V :=
  map snd d.

(** ** Exceptions, the log and the random value provider *)

Inductive exn : Type :=
| TypeError (msg : string)
| ValueError (msg : string)
| ParseError (msg : string)
| AttributeError (msg : string).

Inductive level : Type := ERROR | WARNING | INFO.

Inductive result (A : Type) : Type :=
| Ok (a : A)
| Raise (e : exn).
Arguments Ok {A} a.
Arguments Raise {A} e.

(** The Faker instance the program holds in [self.fake]: a generator state
    and the four draws the program makes from it. *)
Record Faker : Type := {
  gen : Type;
  word : gen -> string * gen;
  random_int : gen -> Z * gen;
  pyfloat : gen -> float * gen;
  boolean : gen -> bool * gen
}.
Existing Class Faker.

(** What a call may change: the generator behind [self.fake] and the
    records handed to [logging]. *)
Record world (fake : Faker) : Type := World {
  rng : gen fake;
  log : list (level * string)
}.
Arguments World {fake} rng log.
Arguments rng {fake} w.
Arguments log {fake} w.

Module Py.
Section Monad.
Context {fake : Faker}.

Definition M (A : Type) : Type := world fake -> result A * world fake.

Definition ret {A} (a : A) : M A := fun w => (Ok a, w).

Definition bind {A B} (m : M A) (k : A -> M B) : M B :=
  fun w =>
    match m w with
    | (Ok a, w') => k a w'
    | (Raise e, w') => (Raise e, w')
    end.

Definition raise {A} (e : exn) : M A := fun w => (Raise e, w).

Definition draw {A} (f : gen fake -> A * gen fake) : M A :=
  fun w => let (a, g) := f (rng w) in (Ok a, World g (log w)).

Definition logging (lv : level) (msg : string) : M unit :=
  fun w => (Ok tt, World (rng w) (log w ++ [(lv, msg)])).

(** A list comprehension [[f(x) for x in l]]: left to right. *)
Definition comprehension {A B} (f : A -> M B) : list A -> M (list B) :=
  fix go (l : list A) : M (list B) :=
    match l with
    | [] => ret []
    | x :: rest =>
        bind (f x) (fun y => bind (go rest) (fun ys => ret (y :: ys)))
    end.
End Monad.
End Py.

Import Py.

Declare Scope py_scope.
Delimit Scope py_scope with py.
Notation "x <- m ;; k" := (bind m (fun x => k))
  (at level 100, m at next level, right associativity) : py_scope.
Notation "m ;;; k" := (bind m (fun _ => k))
  (at level 100, right associativity) : py_scope.
Local Open Scope py_scope.

(** ** [randomize_json_schema] *)

Section Json.
Context {fake : Faker}.

Definition fake_word : M string := draw (word fake).
Definition fake_random_int : M Z := draw (random_int fake).
Definition fake_pyfloat : M float := draw (pyfloat fake).
Definition fake_boolean : M bool := draw (boolean fake).

(** The loop of [randomize_json_schema] over [input_data.items()].  In
    [randomized_data[self.fake.word()] = randomize_value(value)] Python
    evaluates the right-hand side before the subscript, so the value is
    randomized first and the key is drawn after it. *)
Definition items_loop (randomize_value : pyvalue -> M pyvalue)
  : list (string * pyvalue) -> list (string * pyvalue) ->
    M (list (string * pyvalue)) :=
  fix go (items : list (string * pyvalue))
         (randomized_data : list (string * pyvalue)) :=
    match items with
    | [] => ret randomized_data
    | (_, value) :: rest =>
        v <- randomize_value value ;;
        k <- fake_word ;;
        go rest (dict_set k v randomized_data)
    end.

(** The closure [randomize_value].  Its call
    [self.randomize_json_schema(value)] is made on a dict only, where the
    guard of [randomize_json_schema] passes and the loop runs. *)
Fixpoint randomize_value (value : pyvalue) : M pyvalue :=
  if isinstance value Tstr then
    w <- fake_word ;; ret (PyStr w)
  else if isinstance value Tint then
    n <- fake_random_int ;; ret (PyInt n)
  else if isinstance value Tfloat then
    f <- fake_pyfloat ;; ret (PyFloat f)
  else if isinstance value Tbool then
    b <- fake_boolean ;; ret (PyBool b)
  else
    match value with
    | PyList items =>
        l <- comprehension randomize_value items ;; ret (PyList l)
    | PyDict items =>
        d <- items_loop randomize_value items [] ;; ret (PyDict d)
    | _ => ret PyNone
    end.

Definition randomize_json_schema (input_data : pyvalue) : M pyvalue :=
  if negb (isinstance input_data Tdict) then
    logging ERROR "Input data must be a dictionary for JSON format." ;;;
    raise (TypeError "Input data must be a dictionary for JSON format.")
  else
    match input_data with
    | PyDict items =>
        d <- items_loop randomize_value items [] ;; ret (PyDict d)
    | _ => raise (TypeError "Input data must be a dictionary for JSON format.")
    end.
End Json.

(** ** Induction over values, through lists and dict entries *)

Section PyvalueInd.
Variable P : pyvalue -> Prop.
Hypothesis Hstr : forall s, P (PyStr s).
Hypothesis Hint : forall n, P (PyInt n).
Hypothesis Hfloat : forall f, P (PyFloat f).
Hypothesis Hbool : forall b, P (PyBool b).
Hypothesis Hnone : P PyNone.
Hypothesis Hlist : forall l, Forall P l -> P (PyList l).
Hypothesis Hdict : forall d, Forall (fun kv => P (snd kv)) d -> P (PyDict d).

Fixpoint pyvalue_nested_ind (v : pyvalue) : P v :=
  match v with
  | PyStr s => Hstr s
  | PyInt n => Hint n
  | PyFloat f => Hfloat f
  | PyBool b => Hbool b
  | PyNone => Hnone
  | PyList l =>
      Hlist l
        ((fix all (l : list pyvalue) : Forall P l :=
            match l with
            | [] => @List.Forall_nil _ P
            | x :: r => @List.Forall_cons _ P x r (pyvalue_nested_ind x) (all r)
            end) l)
  | PyDict d =>
      Hdict d
        ((fix all (d : list (string * pyvalue))
            : Forall (fun kv => P (snd kv)) d :=
            match d with
            | [] => @List.Forall_nil _ _
            | kv :: r =>
                @List.Forall_cons _ (fun kv => P (snd kv)) kv r
                  (pyvalue_nested_ind (snd kv)) (all r)
            end) d)
  end.
End PyvalueInd.

(** ** Shape: nesting and lengths, without names and leaf values *)

#[warnings="-register-all"]
Inductive shape : Type :=
| SLeaf
| SList (items : list shape)
| SDict (entries : list shape).

Fixpoint shape_of (v : pyvalue) : shape :=
  match v with
  | PyList items => SList (map shape_of items)
  | PyDict items => SDict (map (fun kv => shape_of (snd kv)) items)
  | _ => SLeaf
  end.

(** The number of top-level keys of a mapping. *)
Definition key_count (v : pyvalue) : nat :=
  match v with
  | PyDict items => length items
  | _ => 0
  end.

(** ** Two providers to run the program on

    Faker draws each word from a finite word list with replacement, so a
    stream may repeat a word.  [scripted] replays a given list of words (and
    answers [filler] when the list is used up); the other draws are
    constant. *)

Definition scripted (filler : string) : Faker := {|
  gen := list string;
  word := fun g => match g with [] => (filler, []) | w :: g' => (w, g') end;
  random_int := fun g => (7%Z, g);
  pyfloat := fun g => (PrimFloat.one, g);
  boolean := fun g => (true, g)
|}.

Definition script (words : list string) : world (scripted "lorem") :=
  World (fake := scripted "lorem") words [].

(** ** [randomize_xml_schema]

    An [xml.etree.ElementTree.Element]: tag, attributes, direct text, tail
    text and the child elements in order.  A tree built by [ET.fromstring]
    shares no element, so the mutation in place is a function from the tree
    to the mutated tree. *)

#[warnings="-register-all"]
Inductive Element : Type :=
| mkElement (tag : string) (attrib : list (string * string))
            (text : option string) (tail : option string)
            (children : list Element).

Definition tag (e : Element) : string :=
  match e with mkElement t _ _ _ _ => t end.
Definition attrib (e : Element) : list (string * string) :=
  match e with mkElement _ a _ _ _ => a end.
Definition text (e : Element) : option string :=
  match e with mkElement _ _ x _ _ => x end.
Definition tail (e : Element) : option string :=
  match e with mkElement _ _ _ x _ => x end.
Definition children (e : Element) : list Element :=
  match e with mkElement _ _ _ _ c => c end.

(** The truth value of [element.text]: [None] and the empty string are
    false. *)
Definition truthy (x : option string) : bool :=
  match x with
  | None => false
  | Some s => negb (String.eqb s "")
  end.

Section Xml.
Context {fake : Faker}.

(** [ET.fromstring] and [ET.tostring(root, encoding='utf8').decode('utf8')]
    of the standard library. *)
Variable ET_fromstring : string -> string + Element.
Variable ET_tostring : Element -> string.

(** The closure [randomize_element]: the tag, then the text when there is
    one, then the children in order. *)
Fixpoint randomize_element (element : Element) : M Element :=
  match element with
  | mkElement _ a x tl cs =>
      t <- fake_word ;;
      x' <- (if truthy x then w <- fake_word ;; ret (Some w) else ret x) ;;
      cs' <- comprehension randomize_element cs ;;
      ret (mkElement t a x' tl cs')
  end.

Definition randomize_xml_schema (input_xml : string) : M string :=
  match ET_fromstring input_xml with
  | inl e =>
      logging ERROR ("Error parsing XML: " ++ e) ;;;
      raise (ParseError e)
  | inr root =>
      root' <- randomize_element root ;;
      ret (ET_tostring root')
  end.
End Xml.

(** ** [randomize_csv_schema] *)

Definition newline : string := String (ascii_of_nat 10) "".

(** [sep.join(l)] *)
Fixpoint join (sep : string) (l : list string) : string :=
  match l with
  | [] => ""
  | [x] => x
  | x :: rest => x ++ sep ++ join sep rest
  end.

Section Csv.
Context {fake : Faker}.

(** [list(csv.reader(input_csv.splitlines()))] of the standard library. *)
Variable csv_rows : string -> list (list string).

(** [[self.fake.word() for _ in row]] *)
Definition randomize_row (row : list string) : M (list string) :=
  comprehension (fun _ => fake_word) row.

(** [for row in rows[1:]: randomized_rows.append(...)] *)
Fixpoint rows_loop (rows : list (list string))
    (randomized_rows : list (list string)) : M (list (list string)) :=
  match rows with
  | [] => ret randomized_rows
  | row :: rest =>
      randomized_row <- randomize_row row ;;
      rows_loop rest (randomized_rows ++ [randomized_row])
  end.

(** [for row in randomized_rows: output += ",".join(row) + "\n"] *)
Definition output_loop (randomized_rows : list (list string)) : string :=
  fold_left (fun output row => (output ++ (join "," row ++ newline))%string)
            randomized_rows "".

Definition randomize_csv_schema (input_csv : string) : M string :=
  let rows := csv_rows input_csv in
  match rows with
  | [] => logging WARNING "CSV file is empty." ;;; ret ""
  | header :: rest =>
      randomized_header <- randomize_row header ;;
      randomized_rows <- rows_loop rest [randomized_header] ;;
      ret (output_loop randomized_rows)
  end.
End Csv.

(** A reader for text without quotes, to run [randomize_csv_schema] on:
    lines end at a line feed, cells at a comma, and an empty line is a row
    without cells, as with [csv.reader]. *)
Fixpoint split_on (c : ascii) (s : string) : list string :=
  match s with
  | EmptyString => [""]
  | String a rest =>
      if Ascii.eqb a c then "" :: split_on c rest
      else match split_on c rest with
           | [] => [String a ""]
           | x :: xs => String a x :: xs
           end
  end.

Fixpoint drop_last_empty (l : list string) : list string :=
  match l with
  | [] => []
  | [EmptyString] => []
  | x :: rest => x :: drop_last_empty rest
  end.

Definition splitlines (s : string) : list string :=
  drop_last_empty (split_on (ascii_of_nat 10) s).

Definition plain_csv_rows (s : string) : list (list string) :=
  map (fun line => match line with
                   | EmptyString => []
                   | _ => split_on "," line
                   end) (splitlines s).

(** ** [DataSchemaRandomizer.__init__] *)

(** [str.lower] on the ASCII letters.  No character outside ASCII
    lower-cases to a letter of json, xml or csv, so the membership test
    below sees what Python's sees. *)
Definition lower_ascii (c : ascii) : ascii :=
  let n := nat_of_ascii c in
  if (65 <=? n)%nat && (n <=? 90)%nat then ascii_of_nat (n + 32) else c.

Fixpoint lower (s : string) : string :=
  match s with
  | EmptyString => EmptyString
  | String c rest => String (lower_ascii c) (lower rest)
  end.

Definition str_in (s : string) (l : list string) : bool :=
  existsb (String.eqb s) l.

(** [Faker(locale)]: the generator of a new provider for the locale, or the
    message of the [AttributeError] that Faker raises for a locale it does
    not have. *)
Class FakerLocales (fake : Faker) : Type := {
  Faker_new : string -> string + gen fake
}.
Arguments Faker_new {fake _} locale.

(** The fields of the object.  [self.fake] is the provider the methods draw
    from: its generator is the one of the world once the constructor has
    run; the object keeps the locale it was built for. *)
Record DataSchemaRandomizer : Type := {
  data_format : string;
  input_file : option string;
  output_file : option string;
  locale : string
}.

Section Init.
Context {fake : Faker} {locales : FakerLocales fake}.

(** [self.fake = Faker(locale)] *)
Definition new_faker (locale : string) : M unit :=
  fun w =>
    match Faker_new locale with
    | inl msg => (Raise (AttributeError msg), w)
    | inr g => (Ok tt, World g (log w))
    end.

(** The constructor: the format is lower-cased and stored, the provider
    is built, and then the format is tested. *)
Definition init (format : string) (input_file output_file : option string)
    (locale : string) : M DataSchemaRandomizer :=
  let self := {| data_format := lower format;
                 input_file := input_file;
                 output_file := output_file;
                 locale := locale |} in
  new_faker locale ;;;
  if negb (str_in self.(data_format) ["json"; "xml"; "csv"]) then
    raise (ValueError ("Unsupported data format: " ++ self.(data_format)))
  else ret self.
End Init.

(** Faker as installed here, for the witnesses: it has the locales [en_US]
    and [fr_FR], and a new provider starts with the script [first]. *)
Definition two_locales (first : list string)
  : FakerLocales (scripted "lorem") :=
  Build_FakerLocales (scripted "lorem")
    (fun locale =>
       if String.eqb locale "en_US" || String.eqb locale "fr_FR"
       then inr (first : gen (scripted "lorem"))
       else inl ("Invalid configuration for faker locale `" ++ locale ++ "`")%string).

(** ** The same function over a store of objects

    [randomize_json_schema] is handed a reference to a dict that its caller
    still holds.  To say what the call does to that dict, the lists and
    dicts live in a store here: a scalar is a value, a list or dict is
    a reference into the store, [{}] and a list comprehension allocate, and
    [randomized_data[k] = v] updates the object behind a reference. *)

Module Heap.

Inductive hval : Type :=
| HStr (s : string)
| HInt (n : Z)
| HFloat (f : float)
| HBool (b : bool)
| HNone
| HRef (l : nat).

Inductive hobj : Type :=
| HList (items : list hval)
| HDict (items : list (string * hval)).

Record hworld (fake : Faker) : Type := HWorld {
  hrng : gen fake;
  hlog : list (level * string);
  heap : list hobj
}.
Arguments HWorld {fake} hrng hlog heap.
Arguments hrng {fake} _.
Arguments hlog {fake} _.
Arguments heap {fake} _.

Section Monad.
Context {fake : Faker}.

(** [None]: the fuel ran out, or the program read a reference that the
    store does not hold or holds at another class. *)
Definition HM (A : Type) : Type :=
  hworld fake -> option (result A * hworld fake).

Definition ret {A} (a : A) : HM A := fun w => Some (Ok a, w).

Definition bind {A B} (m : HM A) (k : A -> HM B) : HM B :=
  fun w =>
    match m w with
    | Some (Ok a, w') => k a w'
    | Some (Raise e, w') => Some (Raise e, w')
    | None => None
    end.

Definition raise {A} (e : exn) : HM A := fun w => Some (Raise e, w).

Definition stuck {A} : HM A := fun _ => None.

Definition draw {A} (f : gen fake -> A * gen fake) : HM A :=
  fun w => let (a, g) := f (hrng w) in
           Some (Ok a, HWorld g (hlog w) (heap w)).

Definition logging (lv : level) (msg : string) : HM unit :=
  fun w => Some (Ok tt, HWorld (hrng w) (hlog w ++ [(lv, msg)]) (heap w)).

Definition alloc (o : hobj) : HM nat :=
  fun w => Some (Ok (length (heap w)),
                 HWorld (hrng w) (hlog w) (heap w ++ [o])).

Definition load (l : nat) : HM hobj :=
  fun w => match heap w !! l with
           | Some o => Some (Ok o, w)
           | None => None
           end.

Definition store (l : nat) (o : hobj) : HM unit :=
  fun w => Some (Ok tt, HWorld (hrng w) (hlog w) (<[l := o]> (heap w))).
End Monad.

Declare Scope heap_scope.
Delimit Scope heap_scope with heap.
Notation "x <- m ;; k" := (bind m (fun x => k))
  (at level 100, m at next level, right associativity) : heap_scope.
Notation "m ;;; k" := (bind m (fun _ => k))
  (at level 100, right associativity) : heap_scope.
Local Open Scope heap_scope.

Section Json.
Context {fake : Faker}.

Definition fake_word : HM string := draw (word fake).
Definition fake_random_int : HM Z := draw (random_int fake).
Definition fake_pyfloat : HM float := draw (pyfloat fake).
Definition fake_boolean : HM bool := draw (boolean fake).

Definition isinstance (value : hval) (cls : pytype) : HM bool :=
  match value with
  | HStr _ => ret (match cls with Tstr => true | _ => false end)
  | HInt _ => ret (match cls with Tint => true | _ => false end)
  | HFloat _ => ret (match cls with Tfloat => true | _ => false end)
  | HBool _ => ret (match cls with Tint | Tbool => true | _ => false end)
  | HNone => ret false
  | HRef l =>
      o <- load l ;;
      ret (match o, cls with
           | HList _, Tlist => true
           | HDict _, Tdict => true
           | _, _ => false
           end)
  end.

(** [input_data.items()] and the elements of a list. *)
Definition dict_items (value : hval) : HM (list (string * hval)) :=
  match value with
  | HRef l => o <- load l ;;
              match o with HDict d => ret d | HList _ => stuck end
  | _ => stuck
  end.

Definition list_items (value : hval) : HM (list hval) :=
  match value with
  | HRef l => o <- load l ;;
              match o with HList d => ret d | HDict _ => stuck end
  | _ => stuck
  end.

(** [randomized_data[k] = v] and the append of a comprehension, on the
    object behind [new]. *)
Definition setitem (new : nat) (k : string) (v : hval) : HM unit :=
  o <- load new ;;
  match o with
  | HDict d => store new (HDict (dict_set k v d))
  | HList _ => stuck
  end.

Definition append (new : nat) (v : hval) : HM unit :=
  o <- load new ;;
  match o with
  | HList l => store new (HList (l ++ [v]))
  | HDict _ => stuck
  end.

Definition items_loop (randomize_value : hval -> HM hval) (new : nat)
  : list (string * hval) -> HM unit :=
  fix go (items : list (string * hval)) :=
    match items with
    | [] => ret tt
    | (_, value) :: rest =>
        v <- randomize_value value ;;
        k <- fake_word ;;
        setitem new k v ;;;
        go rest
    end.

Definition comprehension (randomize_value : hval -> HM hval) (new : nat)
  : list hval -> HM unit :=
  fix go (items : list hval) :=
    match items with
    | [] => ret tt
    | item :: rest =>
        v <- randomize_value item ;;
        append new v ;;;
        go rest
    end.

(** One unit of fuel for each call of either function. *)
Fixpoint randomize_json_schema (fuel : nat) (input_data : hval)
    {struct fuel} : HM hval :=
  match fuel with
  | O => stuck
  | S fuel' =>
      is_dict <- isinstance input_data Tdict ;;
      if negb is_dict then
        logging ERROR "Input data must be a dictionary for JSON format." ;;;
        raise (TypeError "Input data must be a dictionary for JSON format.")
      else
        randomized_data <- alloc (HDict []) ;;
        items <- dict_items input_data ;;
        items_loop (randomize_value fuel') randomized_data items ;;;
        ret (HRef randomized_data)
  end
with randomize_value (fuel : nat) (value : hval) {struct fuel} : HM hval :=
  match fuel with
  | O => stuck
  | S fuel' =>
      is_str <- isinstance value Tstr ;;
      if is_str then w <- fake_word ;; ret (HStr w) else
      is_int <- isinstance value Tint ;;
      if is_int then n <- fake_random_int ;; ret (HInt n) else
      is_float <- isinstance value Tfloat ;;
      if is_float then f <- fake_pyfloat ;; ret (HFloat f) else
      is_bool <- isinstance value Tbool ;;
      if is_bool then b <- fake_boolean ;; ret (HBool b) else
      is_list <- isinstance value Tlist ;;
      if is_list then
        new <- alloc (HList []) ;;
        items <- list_items value ;;
        comprehension (randomize_value fuel') new items ;;;
        ret (HRef new)
      else
      is_dict <- isinstance value Tdict ;;
      if is_dict then randomize_json_schema fuel' value
      else ret HNone
  end.
End Json.

(** [repr_from lo h v t]: in the store [h] the value [v] denotes the
    Python value [t], and every list and dict of it lies at a location
    from [lo] on. *)
#[warnings="-register-all"]
Inductive repr_from (lo : nat) (h : list hobj) : hval -> pyvalue -> Prop :=
| repr_str s : repr_from lo h (HStr s) (PyStr s)
| repr_int n : repr_from lo h (HInt n) (PyInt n)
| repr_float f : repr_from lo h (HFloat f) (PyFloat f)
| repr_bool b : repr_from lo h (HBool b) (PyBool b)
| repr_none : repr_from lo h HNone PyNone
| repr_list l items vs :
    lo <= l ->
    h !! l = Some (HList items) ->
    Forall2 (repr_from lo h) items vs ->
    repr_from lo h (HRef l) (PyList vs)
| repr_dict l items kvs :
    lo <= l ->
    h !! l = Some (HDict items) ->
    Forall2 (fun a b => fst a = fst b /\ repr_from lo h (snd a) (snd b))
            items kvs ->
    repr_from lo h (HRef l) (PyDict kvs).

Definition repr (h : list hobj) : hval -> pyvalue -> Prop := repr_from 0 h.

(** The generator and the log of a world over the store. *)
Definition pure_world {fake : Faker} (w : hworld fake) : world fake :=
  World (hrng w) (hlog w).

(** Nesting depth of a value, the fuel a call on it needs. *)
Fixpoint depth (v : pyvalue) : nat :=
  match v with
  | PyList items => S (list_max (map depth items))
  | PyDict items => S (list_max (map (fun kv => depth (snd kv)) items))
  | _ => 0
  end.
End Heap.

(** ** Vocabulary of the properties *)

(** *** The generator *)

(** [after g g']: the generator is in state [g'] some draws after [g]. *)
Inductive after {fake : Faker} (g : gen fake) : gen fake -> Prop :=
| after_refl : after g g
| after_word g' : after g g' -> after g (snd (word fake g'))
| after_random_int g' : after g g' -> after g (snd (random_int fake g'))
| after_pyfloat g' : after g g' -> after g (snd (pyfloat fake g'))
| after_boolean g' : after g g' -> after g (snd (boolean fake g')).

(** A word drawn from the provider in a call that starts in state [g0]. *)
Definition drawn_word {fake : Faker} (g0 : gen fake) (s : string) : Prop :=
  exists g, after g0 g /\ s = fst (word fake g).

(** [drawn_before g k]: the word [k] was drawn at some state of the
    generator, and [g] is a state after that draw. *)
Definition drawn_before {fake : Faker} (g : gen fake) (k : string) : Prop :=
  exists g0, k = fst (word fake g0) /\ after (snd (word fake g0)) g.

(** A computation that returns on every state of the generator reached
    from [g0], leaves the log alone and relates its result to its argument
    by [R]. *)
Definition returns {fake : Faker} {A B} (g0 : gen fake) (R : A -> B -> Prop)
    (f : A -> M B) (x : A) : Prop :=
  forall w, after g0 (rng w) ->
    exists y w', f x w = (Ok y, w') /\ after g0 (rng w') /\
                 log w' = log w /\ R x y.

(** A provider that never hands out the same word twice. *)
Definition never_repeats (fake : Faker) : Prop :=
  forall g g' : gen fake,
    after (snd (word fake g)) g' -> fst (word fake g') <> fst (word fake g).

(** Such a provider: the n-th word is n letters long. *)
Fixpoint letters (n : nat) : string :=
  match n with
  | O => ""
  | S n' => String "a" (letters n')
  end.

Definition counting : Faker := {|
  gen := nat;
  word := fun g => (letters g, S g);
  random_int := fun g => (7%Z, g);
  pyfloat := fun g => (PrimFloat.one, g);
  boolean := fun g => (true, g)
|}.

(** *** JSON *)

(** [dict_update acc kvs]: the dict [acc] after the assignments [d[k] = v]
    of [kvs], in order. *)
Definition dict_update (acc kvs : list (string * pyvalue))
  : list (string * pyvalue) :=
  fold_left (fun d kv => dict_set (fst kv) (snd kv) d) kvs acc.

(** [randomized v v']: [v'] has the form [randomize_value] gives to [v].
    For a dict, [kvs] are the entries written by the loop, one for each
    input entry and in the input's order. *)
#[warnings="-register-all"]
Inductive randomized : pyvalue -> pyvalue -> Prop :=
| randomized_str s w : randomized (PyStr s) (PyStr w)
| randomized_int n m : randomized (PyInt n) (PyInt m)
| randomized_float f g : randomized (PyFloat f) (PyFloat g)
| randomized_bool b m : randomized (PyBool b) (PyInt m)
| randomized_none : randomized PyNone PyNone
| randomized_list l l' :
    Forall2 randomized l l' -> randomized (PyList l) (PyList l')
| randomized_dict d kvs :
    Forall2 (fun a b => randomized (snd a) (snd b)) d kvs ->
    randomized (PyDict d) (PyDict (dict_update [] kvs)).

(** The value at a position: a path of indices into lists and into the
    entries of dicts, in their order. *)
Fixpoint at_path (p : list nat) (v : pyvalue) : option pyvalue :=
  match p with
  | [] => Some v
  | i :: p' =>
      match v with
      | PyList items =>
          match items !! i with
          | Some x => at_path p' x
          | None => None
          end
      | PyDict items =>
          match items !! i with
          | Some kv => at_path p' (snd kv)
          | None => None
          end
      | _ => None
      end
  end.

(** [randomize_value] returns a value of the argument's shape, from every
    state of the generator. *)
Definition keeps_shape {fake : Faker} (v : pyvalue) : Prop :=
  forall g0 : gen fake,
    returns g0 (fun v v' => shape_of v' = shape_of v) randomize_value v.

(** *** XML *)

(** Induction over an element tree, through the children. *)
Section ElementInd.
Variable P : Element -> Prop.
Hypothesis Helement :
  forall t a x tl cs, Forall P cs -> P (mkElement t a x tl cs).

Fixpoint Element_nested_ind (e : Element) : P e :=
  match e with
  | mkElement t a x tl cs =>
      Helement t a x tl cs
        ((fix all (cs : list Element) : Forall P cs :=
            match cs with
            | [] => @List.Forall_nil _ P
            | c :: r => @List.Forall_cons _ P c r (Element_nested_ind c) (all r)
            end) cs)
  end.
End ElementInd.

(** What [randomize_element] does to the text of an element and of its
    descendants, in a call that starts with the generator in state [g0]:
    a text that is not empty becomes a word drawn during the call, no
    text or an empty text stays as it is. *)
#[warnings="-register-all"]
Inductive text_rule {fake : Faker} (g0 : gen fake)
  : Element -> Element -> Prop :=
| text_rule_element e e' :
    (truthy (text e) = true ->
     exists g, after g0 g /\ text e' = Some (fst (word fake g))) ->
    (truthy (text e) = false -> text e' = text e) ->
    Forall2 (text_rule g0) (children e) (children e') ->
    text_rule g0 e e'.

(** The number of elements of a tree. *)
Fixpoint element_count (e : Element) : nat :=
  match e with
  | mkElement _ _ _ _ cs => S (list_sum (map element_count cs))
  end.

(** A parser and a serialiser for one document, [<a>hi<b/><c></c></a>], to
    run [randomize_xml_schema] on. *)
Definition sample_tree : Element :=
  mkElement "a" [] (Some "hi") None
    [mkElement "b" [] None None []; mkElement "c" [] None None []].

Definition sample_fromstring (s : string) : string + Element :=
  if String.eqb s "<a>hi<b/><c></c></a>" then inr sample_tree
  else inl "syntax error".

Fixpoint sample_tostring (e : Element) : string :=
  match e with
  | mkElement t _ x _ cs =>
      "<" ++ t ++ ">" ++ match x with Some s => s | None => "" end
          ++ String.concat "" (map sample_tostring cs) ++ "</" ++ t ++ ">"
  end.

(** *** CSV *)

(** The text of CSV rows: the cells of a row joined by commas, a line feed
    after each row. *)
Fixpoint csv_text (rows : list (list string)) : string :=
  match rows with
  | [] => ""
  | row :: rest => (join "," row ++ newline) ++ csv_text rest
  end.

(** A row of the output: as many cells as the input row, each a word drawn
    in this call. *)
Definition row_rule {fake : Faker} (g0 : gen fake)
    (row randomized_row : list string) : Prop :=
  length randomized_row = length row /\
  Forall (drawn_word g0) randomized_row.

(** *** The store *)

(** [simulates fuel t]: on a stored value that denotes [t], the function
    over the store, with this fuel, returns; it draws and logs what the
    function over values does on [t]; the store it found is a prefix of the
    store it leaves; and its result denotes the other's, in lists and dicts
    at locations the store did not have before. *)
Definition simulates {fake : Faker} (fuel : nat) (t : pyvalue) : Prop :=
  forall (x : Heap.hval) (w : Heap.hworld fake),
    Heap.repr (Heap.heap w) x t ->
    exists x' w' t',
      Heap.randomize_value fuel x w = Some (Ok x', w') /\
      randomize_value t (Heap.pure_world w) = (Ok t', Heap.pure_world w') /\
      Heap.heap w `prefix_of` Heap.heap w' /\
      Heap.repr_from (length (Heap.heap w)) (Heap.heap w') x' t'.

(** A value and a store to run on: [{"a": [1, "x"], "b": true}], the dict
    at location 0 and its list at location 1. *)
Definition sample_value : list (string * pyvalue) :=
  [("a", PyList [PyInt 1; PyStr "x"]); ("b", PyBool true)].

Definition sample_store : list Heap.hobj :=
  [Heap.HDict [("a", Heap.HRef 1); ("b", Heap.HBool true)];
   Heap.HList [Heap.HInt 1; Heap.HStr "x"]].

Definition sample_hworld : Heap.hworld (scripted "lorem") :=
  Heap.HWorld (fake := scripted "lorem") ["w1"; "k1"; "k2"] [] sample_store.

(** ** [process_data] and [main]

    The exceptions that reach [process_data] and [main]: those of the
    classes above, and those of [open], [read], [json.loads] and
    [csv.reader].  All of them are subclasses of [Exception]. *)

Inductive pyexn : Type :=
| Randomizer (e : exn)
| FileNotFoundError (msg : string)
| OSError (msg : string)
| JSONDecodeError (msg : string)
| UnicodeDecodeError (msg : string)
| CsvError (msg : string).

(** [str(e)] *)
Definition str_exn (e : exn) : string :=
  match e with
  | TypeError msg => msg
  | ValueError msg => msg
  | ParseError msg => msg
  | AttributeError msg => msg
  end.

Definition str_pyexn (e : pyexn) : string :=
  match e with
  | Randomizer e => str_exn e
  | FileNotFoundError msg => msg
  | OSError msg => msg
  | JSONDecodeError msg => msg
  | UnicodeDecodeError msg => msg
  | CsvError msg => msg
  end.

(** What an [except] clause catches.  [json.JSONDecodeError] and
    [UnicodeDecodeError] are subclasses of [ValueError];
    [FileNotFoundError] is not. *)
Definition is_ValueError (e : pyexn) : bool :=
  match e with
  | Randomizer (ValueError _) => true
  | JSONDecodeError _ => true
  | UnicodeDecodeError _ => true
  | _ => false
  end.

Definition is_FileNotFoundError (e : pyexn) : bool :=
  match e with
  | FileNotFoundError _ => true
  | _ => false
  end.

Definition is_JSONDecodeError (e : pyexn) : bool :=
  match e with
  | JSONDecodeError _ => true
  | _ => false
  end.

(** What a path holds: a text; something [open] refuses in either mode (a
    directory, a file without permission); bytes that are not UTF-8, which
    [read] refuses; a text that may be read and not written; or nothing,
    and no directory to create a file in.  A path that holds nothing at all
    ([None] below) can be created. *)
Inductive file : Type :=
| Readable (content : string)
| Unreadable (why : string)
| Undecodable (why : string)
| ReadOnly (content : string)
| NoDirectory.

(** What a run of the program may change: the generator and the log, the
    files and the standard output. *)
Record machine (fake : Faker) : Type := Machine {
  mworld : world fake;
  files : string -> option file;
  stdout : list string
}.
Arguments Machine {fake} mworld files stdout.
Arguments mworld {fake} _.
Arguments files {fake} _.
Arguments stdout {fake} _.

Inductive outcome (A : Type) : Type :=
| Return (a : A)
| Throw (e : pyexn).
Arguments Return {A} a.
Arguments Throw {A} e.

(** The arguments as [parser.parse_args()] returns them: the two
    positional ones are strings, [--output_file] may be absent. *)
Record Namespace : Type := {
  args_data_format : string;
  args_input_file : string;
  args_output_file : option string;
  args_locale : string
}.

(** The library functions that [main], [process_data] and the randomizers
    call: [json.loads], which raises [JSONDecodeError] or another
    exception; [json.dumps(_, indent=4)]; [ET.fromstring], which raises
    [ParseError]; [ET.tostring(_, encoding='utf8').decode('utf8')];
    [list(csv.reader(_.splitlines()))], which may raise [csv.Error]; and
    [parse_args] of the parser of [setup_argparse], which returns the
    arguments, or exits with a status after it has printed its help on
    the standard output (its usage and error messages go elsewhere). *)
Record Library : Type := {
  json_loads : string -> pyexn + pyvalue;
  json_dumps : pyvalue -> string;
  xml_fromstring : string -> string + Element;
  xml_tostring : Element -> string;
  csv_reader : string -> pyexn + list (list string);
  parse_args : list string -> nat * list string + Namespace
}.
Existing Class Library.
Arguments json_loads {_} _.
Arguments json_dumps {_} _.
Arguments xml_fromstring {_} _.
Arguments xml_tostring {_} _.
Arguments csv_reader {_} _.
Arguments parse_args {_} _.

Module Proc.
Section Monad.
Context {fake : Faker}.

Definition PM (A : Type) : Type :=
  machine fake -> outcome A * machine fake.

Definition ret {A} (a : A) : PM A := fun m => (Return a, m).

Definition bind {A B} (c : PM A) (k : A -> PM B) : PM B :=
  fun m =>
    match c m with
    | (Return a, m') => k a m'
    | (Throw e, m') => (Throw e, m')
    end.

Definition throw {A} (e : pyexn) : PM A := fun m => (Throw e, m).

(** [try: body except ... as e: handler(e)] *)
Definition try_except {A} (body : PM A) (handler : pyexn -> PM A) : PM A :=
  fun m =>
    match body m with
    | (Return a, m') => (Return a, m')
    | (Throw e, m') => handler e m'
    end.

(** A method of the randomizer, run on the machine. *)
Definition lift {A} (c : M A) : PM A :=
  fun m =>
    match c (mworld m) with
    | (Ok a, w') => (Return a, Machine w' (files m) (stdout m))
    | (Raise e, w') => (Throw (Randomizer e), Machine w' (files m) (stdout m))
    end.

Definition logging (lv : level) (msg : string) : PM unit :=
  lift (Py.logging lv msg).

Definition no_such_file (path : string) : pyexn :=
  FileNotFoundError ("[Errno 2] No such file or directory: '" ++ path ++ "'").

(** [with open(path, 'r', encoding='utf-8') as f: f.read()] *)
Definition read_text (path : string) : PM string :=
  fun m =>
    match files m path with
    | None => (Throw (no_such_file path), m)
    | Some NoDirectory => (Throw (no_such_file path), m)
    | Some (Unreadable why) => (Throw (OSError why), m)
    | Some (Undecodable why) => (Throw (UnicodeDecodeError why), m)
    | Some (Readable content) => (Return content, m)
    | Some (ReadOnly content) => (Return content, m)
    end.

(** [with open(path, 'w', encoding='utf-8') as f: f.write(data)] *)
Definition write_text (path data : string) : PM unit :=
  fun m =>
    match files m path with
    | Some (Unreadable why) => (Throw (OSError why), m)
    | Some (ReadOnly _) =>
        (Throw (OSError ("[Errno 13] Permission denied: '" ++ path ++ "'")),
         m)
    | Some NoDirectory => (Throw (no_such_file path), m)
    | _ =>
        (Return tt,
         Machine (mworld m)
           (fun p => if String.eqb p path then Some (Readable data)
                     else files m p)
           (stdout m))
    end.

(** [print(data)] *)
Definition print (data : string) : PM unit :=
  fun m =>
    (Return tt,
     Machine (mworld m) (files m) (stdout m ++ [(data ++ newline)%string])).
End Monad.
End Proc.

Declare Scope proc_scope.
Delimit Scope proc_scope with proc.
Notation "x <- c ;; k" := (Proc.bind c (fun x => k))
  (at level 100, c at next level, right associativity) : proc_scope.
Notation "c ;;; k" := (Proc.bind c (fun _ => k))
  (at level 100, right associativity) : proc_scope.

(** How a call of [main] ends: it returns, an exception leaves it, or
    [parse_args] exits. *)
Inductive ended : Type :=
| Returned
| Raised (e : pyexn)
| Exited (status : nat).

Section Process.
Context {fake : Faker} {locales : FakerLocales fake} {lib : Library}.
Local Open Scope proc_scope.

(** The chain [if ... elif ... elif ... else] on [self.data_format]. *)
Definition dispatch {A} (self : DataSchemaRandomizer)
    (on_json on_xml on_csv otherwise : A) : A :=
  if String.eqb (data_format self) "json" then on_json
  else if String.eqb (data_format self) "xml" then on_xml
  else if String.eqb (data_format self) "csv" then on_csv
  else otherwise.

(** The branch of [process_data] on [self.data_format].  In
    [randomize_csv_schema] the reader runs first, so an exception of the
    reader leaves the method before it has done anything; when the
    reader returns, the method runs on the rows it returned. *)
Definition transform (self : DataSchemaRandomizer) (data : string)
  : Proc.PM string :=
  dispatch self
    (input_data <- (match json_loads data with
                    | inl e => Proc.throw e
                    | inr v => Proc.ret v
                    end) ;;
     randomized_data <- Proc.lift (randomize_json_schema input_data) ;;
     Proc.ret (json_dumps randomized_data))
    (Proc.lift (randomize_xml_schema xml_fromstring xml_tostring data))
    (match csv_reader data with
     | inl e => Proc.throw e
     | inr rows => Proc.lift (randomize_csv_schema (fun _ => rows) data)
     end)
    (Proc.throw (Randomizer (ValueError
       ("Unsupported data format: " ++ data_format self)))).

(** The end of the [try] block: the output goes to the file or to the
    standard output. *)
Definition emit (self : DataSchemaRandomizer) (output_data : string)
  : Proc.PM unit :=
  if truthy (output_file self) then
    let path := match output_file self with Some p => p | None => "" end in
    Proc.write_text path output_data ;;;
    Proc.logging INFO ("Randomized data written to " ++ path)
  else
    Proc.print output_data ;;;
    Proc.logging INFO "Randomized data printed to console.".

Definition process_data (self : DataSchemaRandomizer) : Proc.PM unit :=
  if negb (truthy (input_file self)) then
    Proc.logging ERROR "Input file is required." ;;;
    Proc.throw (Randomizer (ValueError "Input file is required."))
  else
    let path := match input_file self with Some p => p | None => "" end in
    data <- Proc.try_except (Proc.read_text path)
              (fun e =>
                 if is_FileNotFoundError e then
                   Proc.logging ERROR ("File not found: " ++ path) ;;;
                   Proc.throw (FileNotFoundError ("File not found: " ++ path))
                 else
                   Proc.logging ERROR ("Error reading file: " ++ str_pyexn e) ;;;
                   Proc.throw e) ;;
    Proc.try_except
      (output_data <- transform self data ;;
       emit self output_data)
      (fun e =>
         if is_JSONDecodeError e then
           Proc.logging ERROR ("Error decoding JSON: " ++ str_pyexn e) ;;;
           Proc.throw e
         else
           Proc.logging ERROR ("Error processing data: " ++ str_pyexn e) ;;;
           Proc.throw e).

(** The [try] statement of [main], for the arguments [args].  Every
    exception that can come here is an [Exception], so one of the three
    clauses catches it. *)
Definition run (args : Namespace) : Proc.PM unit :=
  Proc.try_except
    (randomizer <- Proc.lift (init (args_data_format args)
                                (Some (args_input_file args))
                                (args_output_file args) (args_locale args)) ;;
     process_data randomizer)
    (fun e =>
       if is_ValueError e then
         Proc.logging ERROR ("Value Error: " ++ str_pyexn e)
       else if is_FileNotFoundError e then
         Proc.logging ERROR ("File Not Found Error: " ++ str_pyexn e)
       else
         Proc.logging ERROR ("An unexpected error occurred: " ++ str_pyexn e)).

(** [main], on the command line [argv]: [parse_args] stands before the
    [try], and its exit is not caught. *)
Definition main (argv : list string)
  : machine fake -> ended * machine fake :=
  fun m =>
    match parse_args argv with
    | inl (status, printed) =>
        (Exited status,
         Machine (mworld m) (files m) (stdout m ++ printed))
    | inr args =>
        match run args m with
        | (Return _, m') => (Returned, m')
        | (Throw e, m') => (Raised e, m')
        end
    end.
End Process.

(** *** The run of the program *)

(** The files and the standard output are after the step what they were
    before it. *)
Definition same_io {fake : Faker} (m m' : machine fake) : Prop :=
  files m' = files m /\ stdout m' = stdout m.

(** A step that never touches the files and the standard output, and a
    step that has not touched them when it throws. *)
Definition quiet {fake : Faker} {A} (c : Proc.PM A) : Prop :=
  forall m r m', c m = (r, m') -> same_io m m'.


(** The text [data] is what a read of [path] gives. *)
Definition holds_text {fake : Faker} (m : machine fake) (path data : string)
  : Prop :=
  files m path = Some (Readable data) \/ files m path = Some (ReadOnly data).

(** The text of the input is one the randomizer of the object's format
    takes: JSON that decodes to a mapping, XML that parses, CSV that the
    reader reads. *)
Definition accepted {lib : Library} (self : DataSchemaRandomizer)
    (data : string) : Prop :=
  (data_format self = "json" /\
   exists items, json_loads data = inr (PyDict items)) \/
  (data_format self = "xml" /\ exists root, xml_fromstring data = inr root) \/
  (data_format self = "csv" /\ exists rows, csv_reader data = inr rows).

(** The output [out] has gone to the output file, or else to the standard
    output, and nowhere else. *)
Definition emitted {fake : Faker} (self : DataSchemaRandomizer)
    (out : string) (m m' : machine fake) : Prop :=
  if truthy (output_file self) then
    exists path,
      output_file self = Some path /\
      files m' path = Some (Readable out) /\
      (forall p, p <> path -> files m' p = files m p) /\
      stdout m' = stdout m
  else
    files m' = files m /\ stdout m' = stdout m ++ [(out ++ newline)%string].

(** A library to run on: [json.loads] knows three documents, the XML side
    is the sample parser, the CSV side the reader for plain text, and the
    parser of the command line takes a format, an input path and, after
    [-o], an output path. *)
Definition sample_parse_args (argv : list string)
  : nat * list string + Namespace :=
  match argv with
  | [format; input] =>
      if str_in format ["json"; "xml"; "csv"]
      then inr {| args_data_format := format; args_input_file := input;
                  args_output_file := None; args_locale := "en_US" |}
      else inl (2, [])
  | [format; input; flag; output] =>
      if str_in format ["json"; "xml"; "csv"] && String.eqb flag "-o"
      then inr {| args_data_format := format; args_input_file := input;
                  args_output_file := Some output; args_locale := "en_US" |}
      else inl (2, [])
  | _ => inl (2, [])
  end.

Definition sample_library : Library := {|
  json_loads := fun s =>
    if String.eqb s "{}" then inr (PyDict [])
    else if String.eqb s "[1]" then inr (PyList [PyInt 1])
    else if String.eqb s "sample" then inr (PyDict sample_value)
    else inl (JSONDecodeError "Expecting value: line 1 column 1 (char 0)");
  json_dumps := fun v => match v with
                         | PyDict d => join "," (dict_keys d)
                         | _ => "?"
                         end;
  xml_fromstring := sample_fromstring;
  xml_tostring := sample_tostring;
  csv_reader := fun s => inr (plain_csv_rows s);
  parse_args := sample_parse_args
|}.

(** A machine with one file, [in.json], that holds [sample]. *)
Definition sample_machine : machine (scripted "lorem") :=
  Machine (fake := scripted "lorem") (script ["w1"; "k1"; "k2"])
    (fun p => if String.eqb p "in.json" then Some (Readable "sample") else None)
    [].

(** The same machine, where [in.json] holds a list, and what is left of it
    after a failed run. *)
Definition list_machine : machine (scripted "lorem") :=
  Machine (fake := scripted "lorem") (script [])
    (fun p => if String.eqb p "in.json" then Some (Readable "[1]") else None)
    [].

Definition list_machine_failed : machine (scripted "lorem") :=
  Machine (fake := scripted "lorem")
    (World (fake := scripted "lorem") []
       [(ERROR, "Input data must be a dictionary for JSON format.");
        (ERROR, "Error processing data: Input data must be a dictionary for JSON format.")])
    (fun p => if String.eqb p "in.json" then Some (Readable "[1]") else None)
    [].

Definition json_to_console : DataSchemaRandomizer :=
  {| data_format := "json"; input_file := Some "in.json";
     output_file := None; locale := "en_US" |}.

(** The sample machine after a run of [json_to_console]. *)
Definition sample_machine_printed : machine (scripted "lorem") :=
  Machine (fake := scripted "lorem")
    (World (fake := scripted "lorem") []
       [(INFO, "Randomized data printed to console.")])
    (files sample_machine) [("k1,k2" ++ newline)%string].

(** *** Where the output comes from *)



(** A step over the store that keeps [h0] as a prefix of the store. *)
Definition keeps {fake : Faker} {A} (h0 : list Heap.hobj) (c : Heap.HM A)
  : Prop :=
  forall (w : Heap.hworld fake) r w',
    h0 `prefix_of` Heap.heap w -> c w = Some (r, w') ->
    h0 `prefix_of` Heap.heap w'.

(** A store where one list is the value of two keys. *)
Definition shared_hworld : Heap.hworld (scripted "lorem") :=
  Heap.HWorld (fake := scripted "lorem") ["k1"; "k2"] []
    [Heap.HDict [("a", Heap.HRef 1); ("b", Heap.HRef 1)];
     Heap.HList [Heap.HInt 1]].

Definition shared_hworld_after : Heap.hworld (scripted "lorem") :=
  Heap.HWorld (fake := scripted "lorem") [] []
    [Heap.HDict [("a", Heap.HRef 1); ("b", Heap.HRef 1)];
     Heap.HList [Heap.HInt 1];
     Heap.HDict [("k1", Heap.HRef 3); ("k2", Heap.HRef 4)];
     Heap.HList [Heap.HInt 7]; Heap.HList [Heap.HInt 7]].

(** * Properties *)

(** ** The monad, step by step *)

Section MonadFacts.
Context {fake : Faker}.

Lemma bind_ok {A B} (m : M A) (k : A -> M B) w a w' :
  m w = (Ok a, w') -> bind m k w = k a w'.
Proof. intros H. unfold bind. now rewrite H. Qed.

Lemma bind_raise {A B} (m : M A) (k : A -> M B) w e w' :
  m w = (Raise e, w') -> bind m k w = (Raise e, w').
Proof. intros H. unfold bind. now rewrite H. Qed.

Lemma draw_ok {A} (f : gen fake -> A * gen fake) w :
  draw f w = (Ok (fst (f (rng w))), World (snd (f (rng w))) (log w)).
Proof. unfold draw. now destruct (f (rng w)). Qed.

Lemma after_trans (g1 g2 g3 : gen fake) :
  after g1 g2 -> after g2 g3 -> after g1 g3.
Proof. intros H12 H23. induction H23; [assumption | now constructor ..]. Qed.

Lemma comprehension_returns {A B} g0 (R : A -> B -> Prop) (f : A -> M B) l :
  Forall (returns g0 R f) l ->
  returns g0 (Forall2 R) (comprehension f) l.
Proof.
  induction 1 as [|x l Hx _ IH]; intros w Hw.
  - exists [], w. repeat split; [assumption | constructor].
  - destruct (Hx w Hw) as (y & w1 & E1 & A1 & L1 & R1).
    destruct (IH w1 A1) as (ys & w2 & E2 & A2 & L2 & R2).
    exists (y :: ys), w2. cbn. rewrite (bind_ok _ _ _ _ _ E1).
    rewrite (bind_ok _ _ _ _ _ E2). repeat split.
    + assumption.
    + congruence.
    + now constructor.
Qed.
End MonadFacts.

(** ** What [randomize_value] builds *)

Section JsonFacts.
Context {fake : Faker}.

Lemma items_loop_returns g0 (R : pyvalue -> pyvalue -> Prop) f items :
  Forall (fun kv => returns g0 R f (snd kv)) items ->
  forall acc w, after g0 (rng w) -> exists kvs w',
    items_loop f items acc w = (Ok (dict_update acc kvs), w') /\
    after g0 (rng w') /\ log w' = log w /\
    Forall2 (fun a b => R (snd a) (snd b)) items kvs.
Proof.
  induction 1 as [|[k0 v0] items Hx _ IH]; intros acc w Hw.
  - exists [], w. repeat split; [assumption | constructor].
  - destruct (Hx w Hw) as (y & w1 & E1 & A1 & L1 & R1). cbn in E1.
    pose proof (draw_ok (word fake) w1) as E2.
    destruct (IH (dict_set (fst (word fake (rng w1))) y acc)
                 (World (snd (word fake (rng w1))) (log w1)))
      as (kvs & w3 & E3 & A3 & L3 & R3).
    { cbn. now constructor. }
    exists ((fst (word fake (rng w1)), y) :: kvs), w3. cbn.
    rewrite (bind_ok _ _ _ _ _ E1). unfold fake_word.
    rewrite (bind_ok _ _ _ _ _ E2). repeat split.
    + exact E3.
    + exact A3.
    + cbn in L3. congruence.
    + constructor; [exact R1 | exact R3].
Qed.

Lemma randomize_value_returns g0 (v : pyvalue) :
  returns g0 randomized randomize_value v.
Proof.
  induction v as [s|n|f|b| |l IH|d IH] using pyvalue_nested_ind;
    intros w Hw.
  - cbn. unfold fake_word. rewrite (bind_ok _ _ _ _ _ (draw_ok _ w)).
    eexists _, _. repeat split; cbn; now constructor.
  - cbn. unfold fake_random_int. rewrite (bind_ok _ _ _ _ _ (draw_ok _ w)).
    eexists _, _. repeat split; cbn; now constructor.
  - cbn. unfold fake_pyfloat. rewrite (bind_ok _ _ _ _ _ (draw_ok _ w)).
    eexists _, _. repeat split; cbn; now constructor.
  - cbn. unfold fake_random_int. rewrite (bind_ok _ _ _ _ _ (draw_ok _ w)).
    eexists _, _. repeat split; cbn; now constructor.
  - cbn. eexists _, _. repeat split; [assumption | constructor].
  - destruct (comprehension_returns g0 randomized randomize_value l IH w Hw)
      as (ys & w' & E & A & L & R).
    exists (PyList ys), w'. cbn. rewrite (bind_ok _ _ _ _ _ E).
    repeat split; [exact A | exact L | now constructor].
  - destruct (items_loop_returns g0 randomized randomize_value d IH [] w Hw)
      as (kvs & w' & E & A & L & R).
    exists (PyDict (dict_update [] kvs)), w'. cbn.
    rewrite (bind_ok _ _ _ _ _ E).
    repeat split; [exact A | exact L | now constructor].
Qed.

(** On a dict the closure's call of [randomize_json_schema] and the method
    are the same computation. *)
Lemma randomize_value_dict items w :
  randomize_value (PyDict items) w = randomize_json_schema (PyDict items) w.
Proof. reflexivity. Qed.

(** [randomize_json_schema] on a mapping returns a mapping and writes
    nothing to the log. *)
Lemma randomize_json_schema_returns items w :
  exists kvs w',
    randomize_json_schema (PyDict items) w
      = (Ok (PyDict (dict_update [] kvs)), w') /\
    log w' = log w /\
    Forall2 (fun a b => randomized (snd a) (snd b)) items kvs.
Proof.
  destruct (randomize_value_returns (rng w) (PyDict items) w)
    as (y & w' & E & _ & L & R); [constructor|].
  rewrite randomize_value_dict in E. inversion R; subst.
  eexists _, w'. repeat split; eauto.
Qed.
End JsonFacts.

(** ** Dicts: what an assignment does to the number of entries *)

Section DictFacts.
Context {V : Type}.
Implicit Types (d : list (string * V)) (k : string) (v : V).

Lemma dict_set_new k v d :
  ~ In k (dict_keys d) -> dict_set k v d = d ++ [(k, v)].
Proof.
  induction d as [|[k' v'] d IH]; cbn; intros Hk; [reflexivity|].
  destruct (String.eqb_spec k' k) as [->|Hne].
  - exfalso. apply Hk. now left.
  - f_equal. apply IH. intros Hin. apply Hk. now right.
Qed.

Lemma dict_set_old k v d :
  In k (dict_keys d) -> length (dict_set k v d) = length d.
Proof.
  induction d as [|[k' v'] d IH]; cbn; intros Hk; [tauto|].
  destruct (String.eqb_spec k' k) as [->|Hne]; cbn; [reflexivity|].
  f_equal. apply IH. destruct Hk; [congruence | assumption].
Qed.

Lemma dict_set_length_le k v d :
  length d <= length (dict_set k v d) <= S (length d).
Proof.
  induction d as [|[k' v'] d IH]; cbn; [lia|].
  destruct (String.eqb k' k); cbn; lia.
Qed.
End DictFacts.

Lemma dict_update_length_le kvs acc :
  length acc <= length (dict_update acc kvs) <= length acc + length kvs.
Proof.
  revert acc. induction kvs as [|[k v] kvs IH]; intros acc; cbn; [lia|].
  specialize (IH (dict_set k v acc)). unfold dict_update in IH.
  pose proof (dict_set_length_le k v acc). cbn in *. lia.
Qed.

(** With keys that are new and pairwise distinct the loop appends. *)
Lemma dict_update_nodup kvs acc :
  NoDup (dict_keys acc ++ dict_keys kvs) -> dict_update acc kvs = acc ++ kvs.
Proof.
  revert acc. induction kvs as [|[k v] kvs IH]; intros acc Hnd; cbn.
  - now rewrite app_nil_r.
  - assert (Hnew : ~ In k (dict_keys acc)).
    { intros Hin. apply NoDup_app in Hnd as (_ & Hd & _).
      apply (Hd k); [now apply list_elem_of_In | cbn; left]. }
    rewrite (dict_set_new _ _ _ Hnew).
    change (dict_update (acc ++ [(k, v)]) kvs = acc ++ (k, v) :: kvs).
    rewrite IH.
    + now rewrite <- app_assoc.
    + unfold dict_keys in *. rewrite map_app. cbn in *.
      now rewrite <- app_assoc.
Qed.

(** ** JSON: the claims *)

Section JsonClaims.
Context {fake : Faker}.

(** The list rule on its own: a list gives a list of the same length whose
    elements are the randomized elements, in order. *)
Lemma randomize_value_list l w :
  exists l' w',
    randomize_value (PyList l) w = (Ok (PyList l'), w') /\
    length l' = length l /\ Forall2 randomized l l'.
Proof.
  destruct (randomize_value_returns (rng w) (PyList l) w)
    as (y & w' & E & _ & _ & R); [constructor|].
  inversion R as [| | | | |? l' HF|]; subst.
  exists l', w'. repeat split; [exact E | | exact HF].
  symmetry. eapply Forall2_length, HF.
Qed.

(** The output never has more top-level keys than the input. *)
Lemma randomize_json_schema_key_count_le items w :
  exists out w',
    randomize_json_schema (PyDict items) w = (Ok out, w') /\
    key_count out <= key_count (PyDict items).
Proof.
  destruct (randomize_json_schema_returns items w) as (kvs & w' & E & _ & R).
  eexists _, w'. split; [exact E|]. cbn.
  pose proof (dict_update_length_le kvs []) as H. cbn in H.
  apply Forall2_length in R. lia.
Qed.
End JsonClaims.

(** C1: a boolean leaf is not dispatched as a boolean.  [isinstance(value,
    int)] holds for [True] and [False], so the integer branch takes every
    boolean: for every provider and every boolean the result is the integer
    drawn by [random_int], and [boolean] is never consulted. *)
Theorem C1_boolean_dispatched_as_integer (fake : Faker) (b : bool)
    (w : world fake) :
  randomize_value (PyBool b) w
  = (Ok (PyInt (fst (random_int fake (rng w)))),
     World (snd (random_int fake (rng w))) (log w)).
Proof.
  cbn. unfold fake_random_int. now rewrite (bind_ok _ _ _ _ _ (draw_ok _ w)).
Qed.

(** The spec's example [{"name": "Alice", "age": 30, "active": true}]: the
    value written for [active] is an integer. *)
Example json_example_active_is_integer :
  randomize_json_schema (fake := scripted "lorem")
    (PyDict [("name", PyStr "Alice"); ("age", PyInt 30);
             ("active", PyBool true)])
    (script ["w1"; "k1"; "k2"; "k3"])
  = (Ok (PyDict [("k1", PyStr "w1"); ("k2", PyInt 7); ("k3", PyInt 7)]),
     script []).
Proof. reflexivity. Qed.

(** C2: the number of top-level keys is not kept for every random stream.
    On [{"a": 1, "b": 2}], when the provider draws the same word for both
    keys, the second assignment overwrites the first and the output has one
    key. *)
Theorem C2_key_collision_loses_a_key :
  let input_data := PyDict [("a", PyInt 1); ("b", PyInt 2)] in
  let out := PyDict [("dup", PyInt 7)] in
  randomize_json_schema (fake := scripted "lorem") input_data
    (script ["dup"; "dup"]) = (Ok out, script [])
  /\ key_count input_data = 2 /\ key_count out = 1.
Proof. repeat split. Qed.

(** C3: a second application to the first output does return, and loses a
    key when two of its words collide, so its shape is not the first
    output's: [{"a": 1, "b": 2}] gives [{"x": 7, "y": 7}], and that gives
    [{"z": 7}]. *)
Theorem C3_second_application_changes_shape :
  let input_data := PyDict [("a", PyInt 1); ("b", PyInt 2)] in
  let out1 := PyDict [("x", PyInt 7); ("y", PyInt 7)] in
  let out2 := PyDict [("z", PyInt 7)] in
  randomize_json_schema (fake := scripted "lorem") input_data
    (script ["x"; "y"; "z"; "z"]) = (Ok out1, script ["z"; "z"])
  /\ randomize_json_schema (fake := scripted "lorem") out1
       (script ["z"; "z"]) = (Ok out2, script [])
  /\ shape_of out1 = shape_of input_data
  /\ shape_of out2 <> shape_of out1.
Proof. repeat split. cbn. discriminate. Qed.

(** C4: a list under a mapping does not always have its counterpart in the
    output.  On [{"a": [1, 2], "b": [1, 2, 3]}] with the same word drawn
    for both keys, the output is [{"dup": [7, 7, 7]}]: at entry 0 the input
    holds a list of length 2 and the output one of length 3, and entry 1 is
    gone. *)
Theorem C4_list_under_colliding_key_lost :
  let input_data :=
    PyDict [("a", PyList [PyInt 1; PyInt 2]);
            ("b", PyList [PyInt 1; PyInt 2; PyInt 3])] in
  let out := PyDict [("dup", PyList [PyInt 7; PyInt 7; PyInt 7])] in
  randomize_json_schema (fake := scripted "lorem") input_data
    (script ["dup"; "dup"]) = (Ok out, script [])
  /\ at_path [0] input_data = Some (PyList [PyInt 1; PyInt 2])
  /\ at_path [0] out = Some (PyList [PyInt 7; PyInt 7; PyInt 7])
  /\ at_path [1] input_data = Some (PyList [PyInt 1; PyInt 2; PyInt 3])
  /\ at_path [1] out = None.
Proof. repeat split. Qed.

(** C7: on a value that is not a mapping [randomize_json_schema] logs the
    error and raises [TypeError]; nothing is drawn and nothing returned. *)
Theorem C7_non_mapping_raises_TypeError (fake : Faker) (input_data : pyvalue)
    (w : world fake) :
  isinstance input_data Tdict = false ->
  randomize_json_schema input_data w
  = (Raise (TypeError "Input data must be a dictionary for JSON format."),
     World (rng w)
       (log w ++ [(ERROR, "Input data must be a dictionary for JSON format.")])).
Proof.
  intros H. unfold randomize_json_schema. rewrite H. reflexivity.
Qed.

Lemma C7_non_mapping_raises_TypeError_witness :
  isinstance (PyList [PyInt 1; PyInt 2; PyInt 3]) Tdict = false /\
  randomize_json_schema (fake := scripted "lorem")
    (PyList [PyInt 1; PyInt 2; PyInt 3]) (script [])
  = (Raise (TypeError "Input data must be a dictionary for JSON format."),
     World (fake := scripted "lorem") []
       [(ERROR, "Input data must be a dictionary for JSON format.")]).
Proof.
  split; [reflexivity|].
  apply (C7_non_mapping_raises_TypeError (scripted "lorem")
           (PyList [PyInt 1; PyInt 2; PyInt 3]) (script [])).
  reflexivity.
Defined.

(** ** XML *)

Section XmlFacts.
Context {fake : Faker}.

Lemma randomize_element_returns g0 (e : Element) :
  returns g0 (text_rule g0) randomize_element e.
Proof.
  induction e as [t a x tl cs IH] using Element_nested_ind; intros w Hw.
  pose proof (draw_ok (word fake) w) as E1.
  set (w1 := World (snd (word fake (rng w))) (log w)) in *.
  assert (A1 : after g0 (rng w1)) by (cbn; now constructor).
  assert (Htext : exists x' w2,
    (if truthy x then (wd <- fake_word ;; ret (Some wd)) else ret x) w1
      = (Ok x', w2) /\ after g0 (rng w2) /\ log w2 = log w1 /\
    (truthy x = true -> exists g, after g0 g /\ x' = Some (fst (word fake g))) /\
    (truthy x = false -> x' = x)).
  { destruct (truthy x).
    - unfold fake_word. rewrite (bind_ok _ _ _ _ _ (draw_ok _ w1)).
      eexists _, _. split; [reflexivity|]. repeat split.
      + cbn. now constructor.
      + intros _. exists (rng w1). split; [assumption | reflexivity].
      + discriminate.
    - exists x, w1. repeat split; [assumption | discriminate]. }
  destruct Htext as (x' & w2 & E2 & A2 & L2 & Hyes & Hno).
  destruct (comprehension_returns g0 (text_rule g0) randomize_element cs IH
              w2 A2) as (cs' & w3 & E3 & A3 & L3 & R3).
  exists (mkElement (fst (word fake (rng w))) a x' tl cs'), w3.
  cbn [randomize_element]. unfold fake_word at 1.
  rewrite (bind_ok _ _ _ _ _ E1). rewrite (bind_ok _ _ _ _ _ E2).
  rewrite (bind_ok _ _ _ _ _ E3).
  split; [reflexivity|]. split; [assumption|]. split.
  - subst w1. cbn in *. congruence.
  - constructor; cbn; assumption.
Qed.
End XmlFacts.



(** The sample document, run: the text [hi] becomes the second word drawn,
    the two elements without text get none. *)
Example xml_sample_run :
  randomize_xml_schema (fake := scripted "lorem")
    sample_fromstring sample_tostring "<a>hi<b/><c></c></a>"
    (script ["t1"; "w1"; "t2"; "t3"])
  = (Ok "<t1>w1<t2></t2><t3></t3></t1>", script []).
Proof. reflexivity. Qed.

(** ** CSV *)

Lemma string_app_assoc (a b c : string) :
  ((a ++ b) ++ c = a ++ (b ++ c))%string.
Proof. induction a as [|x a IH]; cbn; [reflexivity | now rewrite IH]. Qed.

Lemma string_app_nil_r (a : string) : (a ++ "" = a)%string.
Proof. induction a as [|x a IH]; cbn; [reflexivity | now rewrite IH]. Qed.

Lemma output_loop_from (rows : list (list string)) (output : string) :
  fold_left (fun output row => (output ++ (join "," row ++ newline))%string)
            rows output
  = (output ++ csv_text rows)%string.
Proof.
  revert output. induction rows as [|row rows IH]; intros output; cbn.
  - now rewrite string_app_nil_r.
  - rewrite IH. now rewrite string_app_assoc.
Qed.

Lemma output_loop_csv_text rows : output_loop rows = csv_text rows.
Proof. unfold output_loop. now rewrite output_loop_from. Qed.

Section CsvFacts.
Context {fake : Faker}.

Lemma fake_word_returns {A} g0 (x : A) :
  returns g0 (fun _ s => drawn_word g0 s) (fun _ => fake_word) x.
Proof.
  intros w Hw. unfold fake_word. rewrite draw_ok.
  eexists _, _. split; [reflexivity|]. cbn. repeat split.
  - now constructor.
  - exists (rng w). split; [assumption | reflexivity].
Qed.

Lemma randomize_row_returns g0 row :
  returns g0 (row_rule g0) randomize_row row.
Proof.
  intros w Hw.
  destruct (comprehension_returns g0 (fun _ s => drawn_word g0 s)
              (fun _ : string => fake_word) row) with (w := w)
    as (r & w' & E & A & L & R).
  - apply Forall_forall. intros x _. apply fake_word_returns.
  - assumption.
  - exists r, w'. repeat split; try assumption.
    + symmetry. eapply Forall2_length, R.
    + clear E. induction R; constructor; assumption.
Qed.

Lemma rows_loop_returns g0 rows :
  forall acc w, after g0 (rng w) -> exists rs w',
    rows_loop rows acc w = (Ok (acc ++ rs), w') /\
    after g0 (rng w') /\ log w' = log w /\
    Forall2 (row_rule g0) rows rs.
Proof.
  induction rows as [|row rows IH]; intros acc w Hw.
  - exists [], w. rewrite app_nil_r. repeat split; [assumption|constructor].
  - destruct (randomize_row_returns g0 row w Hw) as (r & w1 & E1 & A1 & L1 & R1).
    destruct (IH (acc ++ [r]) w1 A1) as (rs & w2 & E2 & A2 & L2 & R2).
    exists (r :: rs), w2. cbn. rewrite (bind_ok _ _ _ _ _ E1).
    rewrite E2, <- app_assoc. cbn. split; [reflexivity|].
    split; [assumption|]. split; [congruence|]. now constructor.
Qed.
End CsvFacts.

(** C6: when the input parses to at least one row, [randomize_csv_schema]
    returns the text of rows [randomized_rows], each row's cells joined by
    commas and followed by a line feed, where [randomized_rows] has one row
    for each input row, in the same order, and row i has as many cells as
    input row i, each cell a word drawn from the provider. *)
Theorem C6_csv_rows_and_cells (fake : Faker)
    (csv_rows : string -> list (list string))
    (input_csv : string) (w : world fake) :
  csv_rows input_csv <> [] ->
  exists randomized_rows w',
    randomize_csv_schema csv_rows input_csv w
      = (Ok (csv_text randomized_rows), w') /\
    log w' = log w /\
    length randomized_rows = length (csv_rows input_csv) /\
    Forall2 (row_rule (rng w)) (csv_rows input_csv) randomized_rows.
Proof.
  intros Hrows. unfold randomize_csv_schema.
  destruct (csv_rows input_csv) as [|header rest]; [congruence|].
  destruct (randomize_row_returns (rng w) header w)
    as (h & w1 & E1 & A1 & L1 & R1); [constructor|].
  destruct (rows_loop_returns (rng w) rest [h] w1 A1)
    as (rs & w2 & E2 & A2 & L2 & R2).
  exists (h :: rs), w2.
  rewrite (bind_ok _ _ _ _ _ E1), (bind_ok _ _ _ _ _ E2).
  unfold ret. rewrite output_loop_csv_text. cbn [app].
  split; [reflexivity|]. split; [congruence|]. split.
  - cbn. f_equal. symmetry. eapply Forall2_length, R2.
  - now constructor.
Qed.

Lemma C6_csv_rows_and_cells_witness :
  plain_csv_rows ("a,b" ++ newline ++ "1,2,3" ++ newline) <> [] /\
  exists randomized_rows w',
    randomize_csv_schema (fake := scripted "lorem") plain_csv_rows
      ("a,b" ++ newline ++ "1,2,3" ++ newline) (script [])
      = (Ok (csv_text randomized_rows), w') /\
    log w' = log (script []) /\
    length randomized_rows
      = length (plain_csv_rows ("a,b" ++ newline ++ "1,2,3" ++ newline)) /\
    Forall2 (row_rule (fake := scripted "lorem") [])
      (plain_csv_rows ("a,b" ++ newline ++ "1,2,3" ++ newline))
      randomized_rows.
Proof.
  split; [discriminate|].
  apply (C6_csv_rows_and_cells (scripted "lorem") plain_csv_rows
           ("a,b" ++ newline ++ "1,2,3" ++ newline) (script [])).
  discriminate.
Defined.

(** A header of two cells and a row of three, run. *)
Example csv_sample_run :
  randomize_csv_schema (fake := scripted "lorem") plain_csv_rows
    ("a,b" ++ newline ++ "1,2,3" ++ newline)
    (script ["h1"; "h2"; "c1"; "c2"; "c3"])
  = (Ok ("h1,h2" ++ newline ++ "c1,c2,c3" ++ newline)%string, script []).
Proof. reflexivity. Qed.

(** C8: when the input parses to no row, [randomize_csv_schema] returns the
    empty string, hands one warning to the log, draws nothing and raises
    nothing. *)
Theorem C8_empty_csv_returns_empty_string (fake : Faker)
    (csv_rows : string -> list (list string))
    (input_csv : string) (w : world fake) :
  csv_rows input_csv = [] ->
  randomize_csv_schema csv_rows input_csv w
  = (Ok "", World (rng w) (log w ++ [(WARNING, "CSV file is empty.")])).
Proof.
  intros Hrows. unfold randomize_csv_schema. rewrite Hrows. reflexivity.
Qed.

Lemma C8_empty_csv_returns_empty_string_witness :
  plain_csv_rows "" = [] /\
  randomize_csv_schema (fake := scripted "lorem") plain_csv_rows "" (script [])
  = (Ok "", World (fake := scripted "lorem") []
              [(WARNING, "CSV file is empty.")]).
Proof.
  split; [reflexivity|].
  apply (C8_empty_csv_returns_empty_string (scripted "lorem") plain_csv_rows
           "" (script [])).
  reflexivity.
Defined.

(** ** The constructor *)

Lemma init_cases (fake : Faker) (locales : FakerLocales fake)
    (format : string) (input_file output_file : option string)
    (locale : string) (w : world fake) :
  init format input_file output_file locale w
  = match Faker_new locale with
    | inl msg => (Raise (AttributeError msg), w)
    | inr g =>
        if str_in (lower format) ["json"; "xml"; "csv"]
        then (Ok {| data_format := lower format; input_file := input_file;
                    output_file := output_file; locale := locale |},
              World g (log w))
        else (Raise (ValueError ("Unsupported data format: " ++ lower format)),
              World g (log w))
    end.
Proof.
  unfold init, bind, new_faker. cbn [data_format].
  destruct (Faker_new locale) as [msg|g]; [reflexivity|].
  now destruct (str_in (lower format) ["json"; "xml"; "csv"]).
Qed.

(** C9, as the code has it: the constructor lower-cases the requested
    format, builds the provider with [Faker(locale)], and then tests the
    format.  It raises [ValueError] exactly when Faker has the locale and
    the lower-cased format is none of json, xml and csv; it returns the
    object, which holds the lower-cased format, exactly when Faker has the
    locale and the lower-cased format is one of the three; and it raises
    Faker's [AttributeError], whatever the format, exactly when Faker does
    not have the locale. *)
Theorem C9_unsupported_format_after_lower (fake : Faker)
    (locales : FakerLocales fake) (format : string)
    (input_file output_file : option string) (locale : string)
    (w : world fake) :
  ((exists msg w',
      init format input_file output_file locale w
      = (Raise (ValueError msg), w'))
   <-> (exists g, Faker_new locale = inr g) /\
       str_in (lower format) ["json"; "xml"; "csv"] = false)
  /\ ((exists self w',
         init format input_file output_file locale w = (Ok self, w') /\
         data_format self = lower format)
      <-> (exists g, Faker_new locale = inr g) /\
          str_in (lower format) ["json"; "xml"; "csv"] = true)
  /\ ((exists msg w',
         init format input_file output_file locale w
         = (Raise (AttributeError msg), w'))
      <-> exists msg, Faker_new locale = inl msg).
Proof.
  rewrite init_cases.
  destruct (Faker_new locale) as [msg0|g];
    [|destruct (str_in (lower format) ["json"; "xml"; "csv"])];
    (split; [|split]); split.
  - intros (msg & w' & H). discriminate.
  - intros [[g H] _]. discriminate.
  - intros (self & w' & H & _). discriminate.
  - intros [[g H] _]. discriminate.
  - intros _. eauto.
  - intros _. eauto.
  - intros (msg & w' & H). discriminate.
  - intros [_ H]. discriminate.
  - intros _. split; [eauto | reflexivity].
  - intros _. eexists _, _. split; reflexivity.
  - intros (msg & w' & H). discriminate.
  - intros [msg H]. discriminate.
  - intros _. split; [eauto | reflexivity].
  - intros _. eauto.
  - intros (self & w' & H & _). discriminate.
  - intros [_ H]. discriminate.
  - intros (msg & w' & H). discriminate.
  - intros [msg H]. discriminate.
Qed.

(** C9 as stated fails in two ways.  The format [JSON] is none of the three
    strings, and the constructor accepts it.  And with a locale that Faker
    does not have, the format [yaml] does not get the [ValueError]: Faker's
    [AttributeError] comes first. *)
Lemma C9_upper_case_format_accepted :
  str_in "JSON" ["json"; "xml"; "csv"] = false /\
  init (locales := two_locales []) "JSON" None None "en_US" (script ["old"])
  = (Ok {| data_format := "json"; input_file := None;
           output_file := None; locale := "en_US" |}, script []) /\
  ~ ((exists msg w',
        init (locales := two_locales []) "JSON" None None "en_US"
          (script ["old"]) = (Raise (ValueError msg), w'))
     <-> str_in "JSON" ["json"; "xml"; "csv"] = false) /\
  str_in "yaml" ["json"; "xml"; "csv"] = false /\
  init (locales := two_locales []) "yaml" None None "xx_XX" (script ["old"])
  = (Raise (AttributeError "Invalid configuration for faker locale `xx_XX`"),
     script ["old"]).
Proof.
  split; [reflexivity|]. split; [reflexivity|]. split.
  - intros [_ H]. destruct (H eq_refl) as (msg & w' & Hmsg). discriminate.
  - split; reflexivity.
Qed.

Example init_yaml_raises :
  init (locales := two_locales []) "yaml" None None "en_US" (script ["old"])
  = (Raise (ValueError "Unsupported data format: yaml"), script []).
Proof. reflexivity. Qed.

(** ** The store: what a call leaves of its input *)

Section HeapFacts.
Context {fake : Faker}.
Implicit Types (w : Heap.hworld fake) (h : list Heap.hobj).

Lemma hbind_ok {A B} (m : Heap.HM A) (k : A -> Heap.HM B) w a w' :
  m w = Some (Ok a, w') -> Heap.bind m k w = k a w'.
Proof. intros H. unfold Heap.bind. now rewrite H. Qed.

Lemma load_ok w l o :
  Heap.heap w !! l = Some o -> Heap.load l w = Some (Ok o, w).
Proof. intros H. unfold Heap.load. now rewrite H. Qed.

Lemma isinstance_ref w l o cls :
  Heap.heap w !! l = Some o ->
  Heap.isinstance (Heap.HRef l) cls w
  = Some (Ok (match o, cls with
              | Heap.HList _, Tlist => true
              | Heap.HDict _, Tdict => true
              | _, _ => false
              end), w).
Proof.
  intros H. cbn. now rewrite (hbind_ok _ _ _ _ _ (load_ok _ _ _ H)).
Qed.

Lemma Forall2_Forall_impl {A B} (R R' : A -> B -> Prop) xs ys :
  Forall (fun y => forall x, R x y -> R' x y) ys ->
  Forall2 R xs ys -> Forall2 R' xs ys.
Proof.
  intros HF H2. induction H2; inversion HF; subst; constructor; auto.
Qed.

(** A denotation survives a change of the store that keeps the locations
    from [lo] on. *)
Lemma repr_from_transport lo lo' h h' t :
  lo' <= lo ->
  (forall l o, lo <= l -> h !! l = Some o -> h' !! l = Some o) ->
  forall v, Heap.repr_from lo h v t -> Heap.repr_from lo' h' v t.
Proof.
  intros Hlo Hh.
  induction t as [s|n|f|b| |vs IH|kvs IH] using pyvalue_nested_ind;
    intros v Hr; inversion Hr; subst; try constructor.
  - econstructor; [lia | eauto |].
    eapply Forall2_Forall_impl; [exact IH | eassumption].
  - econstructor; [lia | eauto |].
    eapply Forall2_Forall_impl; [| eassumption].
    eapply Forall_impl; [exact IH|]. cbn. intros kv H x [Hk Hx]. auto.
Qed.

Lemma repr_from_prefix lo h h' v t :
  h `prefix_of` h' -> Heap.repr_from lo h v t -> Heap.repr_from lo h' v t.
Proof.
  intros Hp. apply repr_from_transport; [lia|].
  intros l o _ Hl. eapply prefix_lookup_Some; eassumption.
Qed.

Lemma repr_from_lower lo lo' h v t :
  lo' <= lo -> Heap.repr_from lo h v t -> Heap.repr_from lo' h v t.
Proof. intros Hlo. apply repr_from_transport; auto. Qed.

Lemma repr_from_insert lo h l o v t :
  l < lo -> Heap.repr_from lo h v t -> Heap.repr_from lo (<[l := o]> h) v t.
Proof.
  intros Hl. apply repr_from_transport; [lia|].
  intros l' o' Hl' Hlook. rewrite list_lookup_insert_ne; [assumption | lia].
Qed.

Lemma prefix_insert_ge h0 h l (o : Heap.hobj) :
  h0 `prefix_of` h -> length h0 <= l -> h0 `prefix_of` <[l := o]> h.
Proof.
  intros [k ->] Hl. rewrite insert_app_r_alt by assumption.
  now apply prefix_app_r.
Qed.

Lemma dict_set_related {V V'} (R : V -> V' -> Prop) k v v' d d' :
  Forall2 (fun a b => fst a = fst b /\ R (snd a) (snd b)) d d' ->
  R v v' ->
  Forall2 (fun a b => fst a = fst b /\ R (snd a) (snd b))
          (dict_set k v d) (dict_set k v' d').
Proof.
  intros H2 Hv. induction H2 as [|[k1 v1] [k2 v2] d d' [Hk H1] H2 IH]; cbn.
  - constructor; [split; [reflexivity | assumption] | constructor].
  - cbn in Hk. subst k2. destruct (String.eqb k1 k).
    + constructor; [split; [reflexivity | assumption] | assumption].
    + constructor; [split; [reflexivity | assumption] | assumption].
Qed.
End HeapFacts.

Section Simulation.
Context {fake : Faker}.
Implicit Types (w : Heap.hworld fake) (h : list Heap.hobj).

(** The comprehension over the store, started with its new list at
    [new] holding [acc_h]. *)
Lemma comprehension_simulates fuel h0 new :
  length h0 <= new ->
  forall items vs,
    Forall2 (Heap.repr h0) items vs ->
    Forall (simulates fuel) vs ->
    forall w acc_h acc,
      h0 `prefix_of` Heap.heap w ->
      Heap.heap w !! new = Some (Heap.HList acc_h) ->
      Forall2 (Heap.repr_from (S new) (Heap.heap w)) acc_h acc ->
      exists w' ys ts,
        Heap.comprehension (Heap.randomize_value fuel) new items w
          = Some (Ok tt, w') /\
        comprehension randomize_value vs (Heap.pure_world w)
          = (Ok ts, Heap.pure_world w') /\
        h0 `prefix_of` Heap.heap w' /\
        Heap.heap w' !! new = Some (Heap.HList (acc_h ++ ys)) /\
        Forall2 (Heap.repr_from (S new) (Heap.heap w')) (acc_h ++ ys)
                (acc ++ ts).
Proof.
  intros Hnew items vs H2.
  induction H2 as [|x t items vs Hx H2 IH]; intros Hsim w acc_h acc Hp Hl Hacc.
  - exists w, [], []. rewrite !app_nil_r.
    split; [reflexivity|]. split; [reflexivity|]. split; [assumption|].
    split; assumption.
  - inversion Hsim as [|? ? Hsim_t Hsim_vs]; subst.
    destruct (Hsim_t x w) as (x' & w1 & t' & E1 & P1 & Pre1 & R1).
    { eapply repr_from_prefix; eassumption. }
    pose proof (lookup_lt_Some _ _ _ Hl) as Hlt.
    assert (Hl1 : Heap.heap w1 !! new = Some (Heap.HList acc_h))
      by (eapply prefix_lookup_Some; eassumption).
    pose proof (lookup_lt_Some _ _ _ Hl1) as Hlt1.
    set (w2 := Heap.HWorld (Heap.hrng w1) (Heap.hlog w1)
                 (<[new := Heap.HList (acc_h ++ [x'])]> (Heap.heap w1))).
    assert (E2 : Heap.append new x' w1 = Some (Ok tt, w2)).
    { unfold Heap.append. now rewrite (hbind_ok _ _ _ _ _ (load_ok _ _ _ Hl1)). }
    destruct (IH Hsim_vs w2 (acc_h ++ [x']) (acc ++ [t']))
      as (w' & ys & ts & E3 & P3 & Pre3 & L3 & R3).
    + cbn. apply prefix_insert_ge; [|assumption]. now transitivity (Heap.heap w).
    + cbn. now apply list_lookup_insert_eq.
    + cbn. apply Forall2_app.
      * eapply Forall2_impl; [exact Hacc|]. intros a b Hab.
        apply repr_from_insert; [lia|]. eapply repr_from_prefix; eassumption.
      * constructor; [|constructor].
        apply repr_from_insert; [lia|].
        eapply repr_from_lower; [|exact R1]. lia.
    + exists w', (x' :: ys), (t' :: ts).
      rewrite <- (app_assoc acc_h) in L3, R3. rewrite <- (app_assoc acc) in R3.
      cbn in L3, R3.
      split; [|split; [|split; [assumption|split; assumption]]].
      * cbn. rewrite (hbind_ok _ _ _ _ _ E1), (hbind_ok _ _ _ _ _ E2).
        exact E3.
      * cbn. rewrite (bind_ok _ _ _ _ _ P1).
        change (Heap.pure_world w1) with (Heap.pure_world w2).
        now rewrite (bind_ok _ _ _ _ _ P3).
Qed.

(** The loop over the entries, started with its new dict at [new]
    holding [acc_h]. *)
Lemma items_loop_simulates fuel h0 new :
  length h0 <= new ->
  forall items kvs,
    Forall2 (fun a b => fst a = fst b /\ Heap.repr h0 (snd a) (snd b))
            items kvs ->
    Forall (fun kv => simulates fuel (snd kv)) kvs ->
    forall w acc_h acc,
      h0 `prefix_of` Heap.heap w ->
      Heap.heap w !! new = Some (Heap.HDict acc_h) ->
      Forall2 (fun a b => fst a = fst b /\
                 Heap.repr_from (S new) (Heap.heap w) (snd a) (snd b))
              acc_h acc ->
      exists w' acc_h' acc',
        Heap.items_loop (Heap.randomize_value fuel) new items w
          = Some (Ok tt, w') /\
        items_loop randomize_value kvs acc (Heap.pure_world w)
          = (Ok acc', Heap.pure_world w') /\
        h0 `prefix_of` Heap.heap w' /\
        Heap.heap w' !! new = Some (Heap.HDict acc_h') /\
        Forall2 (fun a b => fst a = fst b /\
                   Heap.repr_from (S new) (Heap.heap w') (snd a) (snd b))
                acc_h' acc'.
Proof.
  intros Hnew items kvs H2.
  induction H2 as [|[k0 x] [k0' t] items kvs [_ Hx] H2 IH];
    intros Hsim w acc_h acc Hp Hl Hacc.
  - exists w, acc_h, acc.
    split; [reflexivity|]. split; [reflexivity|]. split; [assumption|].
    split; assumption.
  - inversion Hsim as [|? ? Hsim_t Hsim_kvs]; subst. cbn in Hx, Hsim_t.
    destruct (Hsim_t x w) as (x' & w1 & t' & E1 & P1 & Pre1 & R1).
    { eapply repr_from_prefix; eassumption. }
    pose proof (lookup_lt_Some _ _ _ Hl) as Hlt.
    assert (Hl1 : Heap.heap w1 !! new = Some (Heap.HDict acc_h))
      by (eapply prefix_lookup_Some; eassumption).
    pose proof (lookup_lt_Some _ _ _ Hl1) as Hlt1.
    set (k := fst (word fake (Heap.hrng w1))).
    set (g := snd (word fake (Heap.hrng w1))).
    set (w2 := Heap.HWorld g (Heap.hlog w1) (Heap.heap w1)).
    assert (E2 : Heap.fake_word w1 = Some (Ok k, w2)).
    { unfold Heap.fake_word, Heap.draw. subst k g w2.
      now destruct (word fake (Heap.hrng w1)). }
    set (w3 := Heap.HWorld g (Heap.hlog w1)
                 (<[new := Heap.HDict (dict_set k x' acc_h)]> (Heap.heap w1))).
    assert (E3 : Heap.setitem new k x' w2 = Some (Ok tt, w3)).
    { unfold Heap.setitem.
      now rewrite (hbind_ok _ _ _ _ _ (load_ok w2 _ _ Hl1)). }
    destruct (IH Hsim_kvs w3 (dict_set k x' acc_h) (dict_set k t' acc))
      as (w' & acc_h' & acc' & E4 & P4 & Pre4 & L4 & R4).
    + cbn. apply prefix_insert_ge; [|assumption]. now transitivity (Heap.heap w).
    + cbn. now apply list_lookup_insert_eq.
    + cbn. apply (dict_set_related
                    (Heap.repr_from (S new)
                       (<[new := Heap.HDict (dict_set k x' acc_h)]> (Heap.heap w1)))).
      * eapply Forall2_impl; [exact Hacc|]. intros a b [Hk Hab].
        split; [assumption|].
        apply repr_from_insert; [lia|]. eapply repr_from_prefix; eassumption.
      * apply repr_from_insert; [lia|].
        eapply repr_from_lower; [|exact R1]. lia.
    + exists w', acc_h', acc'.
      split; [|split; [|split; [assumption|split; assumption]]].
      * cbn. rewrite (hbind_ok _ _ _ _ _ E1), (hbind_ok _ _ _ _ _ E2),
          (hbind_ok _ _ _ _ _ E3). exact E4.
      * cbn. rewrite (bind_ok _ _ _ _ _ P1).
        unfold fake_word at 1.
        rewrite (bind_ok _ _ _ _ _ (draw_ok (word fake) (Heap.pure_world w1))).
        exact P4.
Qed.
End Simulation.

Section SimulationMain.
Context {fake : Faker}.
Implicit Types (w : Heap.hworld fake) (h : list Heap.hobj).

Lemma list_max_bounds (l : list nat) : Forall (fun k => k <= list_max l) l.
Proof. apply list_max_le. lia. Qed.

Lemma depth_items_lt (vs : list pyvalue) (fuel : nat) :
  2 * S (list_max (map Heap.depth vs)) < fuel ->
  Forall (fun t => 2 * Heap.depth t + 2 < fuel) vs.
Proof.
  intros H. pose proof (list_max_bounds (map Heap.depth vs)) as Hb.
  apply List.Forall_map in Hb. eapply Forall_impl; [exact Hb|].
  cbn. intros t Ht. lia.
Qed.

Lemma depth_entries_lt (kvs : list (string * pyvalue)) (fuel : nat) :
  2 * S (list_max (map (fun kv => Heap.depth (snd kv)) kvs)) < fuel ->
  Forall (fun kv => 2 * Heap.depth (snd kv) + 2 < fuel) kvs.
Proof.
  intros H.
  pose proof (list_max_bounds (map (fun kv => Heap.depth (snd kv)) kvs)) as Hb.
  apply List.Forall_map in Hb. eapply Forall_impl; [exact Hb|].
  cbn. intros t Ht. lia.
Qed.

Lemma dict_items_ok w l items :
  Heap.heap w !! l = Some (Heap.HDict items) ->
  Heap.dict_items (Heap.HRef l) w = Some (Ok items, w).
Proof.
  intros H. unfold Heap.dict_items.
  now rewrite (hbind_ok _ _ _ _ _ (load_ok _ _ _ H)).
Qed.

Lemma list_items_ok w l items :
  Heap.heap w !! l = Some (Heap.HList items) ->
  Heap.list_items (Heap.HRef l) w = Some (Ok items, w).
Proof.
  intros H. unfold Heap.list_items.
  now rewrite (hbind_ok _ _ _ _ _ (load_ok _ _ _ H)).
Qed.

(** [randomize_json_schema] over the store, on a reference to a dict. *)
Lemma randomize_json_schema_simulates fuel kvs :
  Forall (fun kv => simulates fuel (snd kv)) kvs ->
  forall x w, Heap.repr (Heap.heap w) x (PyDict kvs) ->
  exists new w' d',
    Heap.randomize_json_schema (S fuel) x w
      = Some (Ok (Heap.HRef new), w') /\
    randomize_json_schema (PyDict kvs) (Heap.pure_world w)
      = (Ok (PyDict d'), Heap.pure_world w') /\
    Heap.heap w `prefix_of` Heap.heap w' /\
    Heap.repr_from (length (Heap.heap w)) (Heap.heap w') (Heap.HRef new)
      (PyDict d').
Proof.
  intros Hsim x w Hr. inversion Hr as [| | | | | |l items ? _ Hl H2]; subst.
  set (new := length (Heap.heap w)).
  set (w1 := Heap.HWorld (Heap.hrng w) (Heap.hlog w)
               (Heap.heap w ++ [Heap.HDict []])).
  destruct (items_loop_simulates fuel (Heap.heap w) new (le_n _) items kvs
              H2 Hsim w1 [] [])
    as (w' & acc_h' & acc' & E & P & Pre & L & R).
  { cbn. apply prefix_app_r. reflexivity. }
  { cbn. now apply list_lookup_middle. }
  { constructor. }
  exists new, w', acc'. split; [|split; [|split]].
  - cbn [Heap.randomize_json_schema].
    rewrite (hbind_ok _ _ _ _ _ (isinstance_ref w l _ Tdict Hl)).
    cbn [negb].
    assert (Ea : Heap.alloc (Heap.HDict []) w = Some (Ok new, w1))
      by reflexivity.
    rewrite (hbind_ok _ _ _ _ _ Ea).
    assert (Ei : Heap.dict_items (Heap.HRef l) w1 = Some (Ok items, w1)).
    { apply dict_items_ok. cbn. now apply lookup_app_l_Some. }
    rewrite (hbind_ok _ _ _ _ _ Ei), (hbind_ok _ _ _ _ _ E).
    reflexivity.
  - unfold randomize_json_schema. cbn [isinstance negb].
    change (Heap.pure_world w) with (Heap.pure_world w1).
    now rewrite (bind_ok _ _ _ _ _ P).
  - exact Pre.
  - econstructor; [lia | exact L |].
    eapply Forall2_impl; [exact R|]. intros a b [Hk Hab].
    split; [assumption|]. eapply repr_from_lower; [|exact Hab]. lia.
Qed.

Lemma scalar_simulates {A} (f : gen fake -> A * gen fake)
    (mk : A -> Heap.hval) (mk' : A -> pyvalue) w :
  (forall a lo h, Heap.repr_from lo h (mk a) (mk' a)) ->
  exists x' w' t',
    Heap.bind (Heap.draw f) (fun a => Heap.ret (mk a)) w = Some (Ok x', w') /\
    bind (draw f) (fun a => ret (mk' a)) (Heap.pure_world w)
      = (Ok t', Heap.pure_world w') /\
    Heap.heap w `prefix_of` Heap.heap w' /\
    Heap.repr_from (length (Heap.heap w)) (Heap.heap w') x' t'.
Proof.
  intros Hmk. unfold Heap.bind, Heap.draw, Heap.ret, bind, draw, ret. cbn.
  destruct (f (Heap.hrng w)) as [a g].
  exists (mk a), (Heap.HWorld g (Heap.hlog w) (Heap.heap w)), (mk' a).
  split; [reflexivity|]. split; [reflexivity|]. split; [reflexivity|].
  apply Hmk.
Qed.

(** The function over the store does what the function over values does,
    and builds its result from new objects. *)
Theorem randomize_value_simulates (t : pyvalue) :
  forall fuel, 2 * Heap.depth t < fuel -> simulates fuel t.
Proof.
  induction t as [s|n|f|b| |vs IH|kvs IH] using pyvalue_nested_ind;
    intros fuel Hfuel x w Hr;
    (destruct fuel as [|fuel]; [lia|]); inversion Hr; subst.
  - apply (scalar_simulates (word fake) Heap.HStr PyStr). constructor.
  - apply (scalar_simulates (random_int fake) Heap.HInt PyInt). constructor.
  - apply (scalar_simulates (pyfloat fake) Heap.HFloat PyFloat). constructor.
  - apply (scalar_simulates (random_int fake) Heap.HInt PyInt). constructor.
  - exists Heap.HNone, w, PyNone.
    split; [reflexivity|]. split; [reflexivity|]. split; [reflexivity|].
    constructor.
  - rename H1 into Hl, H3 into H2.
    set (new := length (Heap.heap w)).
    set (w1 := Heap.HWorld (Heap.hrng w) (Heap.hlog w)
                 (Heap.heap w ++ [Heap.HList []])).
    destruct (comprehension_simulates fuel (Heap.heap w) new (le_n _)
                items vs H2) with (w := w1) (acc_h := @nil Heap.hval)
                (acc := @nil pyvalue)
      as (w' & ys & ts & E & P & Pre & L & R).
    { cbn in Hfuel. apply depth_items_lt in Hfuel.
      rewrite Forall_forall in IH, Hfuel |- *. intros v Hv.
      apply IH; [assumption|]. specialize (Hfuel v Hv). cbn beta in Hfuel. lia. }
    { cbn. apply prefix_app_r. reflexivity. }
    { cbn. now apply list_lookup_middle. }
    { constructor. }
    exists (Heap.HRef new), w', (PyList ts). split; [|split; [|split]].
    + cbn [Heap.randomize_value].
      rewrite (hbind_ok _ _ _ _ _ (isinstance_ref w l _ Tstr Hl)).
      rewrite (hbind_ok _ _ _ _ _ (isinstance_ref w l _ Tint Hl)).
      rewrite (hbind_ok _ _ _ _ _ (isinstance_ref w l _ Tfloat Hl)).
      rewrite (hbind_ok _ _ _ _ _ (isinstance_ref w l _ Tbool Hl)).
      rewrite (hbind_ok _ _ _ _ _ (isinstance_ref w l _ Tlist Hl)).
      assert (Ea : Heap.alloc (Heap.HList []) w = Some (Ok new, w1))
        by reflexivity.
      rewrite (hbind_ok _ _ _ _ _ Ea).
      assert (Ei : Heap.list_items (Heap.HRef l) w1 = Some (Ok items, w1)).
      { apply list_items_ok. cbn. now apply lookup_app_l_Some. }
      rewrite (hbind_ok _ _ _ _ _ Ei), (hbind_ok _ _ _ _ _ E).
      reflexivity.
    + cbn [randomize_value isinstance].
      change (Heap.pure_world w) with (Heap.pure_world w1).
      now rewrite (bind_ok _ _ _ _ _ P).
    + exact Pre.
    + econstructor; [lia | exact L |].
      eapply Forall2_impl; [exact R|]. intros a b Hab.
      eapply repr_from_lower; [|exact Hab]. lia.
  - rename H1 into Hl, H3 into H2.
    destruct fuel as [|fuel]; [cbn in Hfuel; lia|].
    destruct (randomize_json_schema_simulates fuel kvs) with
      (x := Heap.HRef l) (w := w) as (new & w' & d' & E & P & Pre & R).
    { cbn in Hfuel. apply depth_entries_lt in Hfuel.
      rewrite Forall_forall in IH, Hfuel |- *. intros kv Hkv.
      apply IH; [assumption|]. specialize (Hfuel kv Hkv).
      cbn beta in Hfuel. lia. }
    { exact Hr. }
    exists (Heap.HRef new), w', (PyDict d'). split; [|split; [|split]].
    + cbn [Heap.randomize_value].
      rewrite (hbind_ok _ _ _ _ _ (isinstance_ref w l _ Tstr Hl)).
      rewrite (hbind_ok _ _ _ _ _ (isinstance_ref w l _ Tint Hl)).
      rewrite (hbind_ok _ _ _ _ _ (isinstance_ref w l _ Tfloat Hl)).
      rewrite (hbind_ok _ _ _ _ _ (isinstance_ref w l _ Tbool Hl)).
      rewrite (hbind_ok _ _ _ _ _ (isinstance_ref w l _ Tlist Hl)).
      rewrite (hbind_ok _ _ _ _ _ (isinstance_ref w l _ Tdict Hl)).
      exact E.
    + rewrite randomize_value_dict. exact P.
    + exact Pre.
    + exact R.
Qed.
End SimulationMain.

Lemma sample_store_repr :
  Heap.repr sample_store (Heap.HRef 0) (PyDict sample_value).
Proof.
  eapply Heap.repr_dict; [lia | reflexivity |].
  repeat constructor.
  eapply Heap.repr_list; [lia | reflexivity |].
  repeat constructor.
Qed.

(** C10: a call of [randomize_json_schema] on a reference to a dict returns
    a reference [new] and leaves every object that the store held as it
    was, so the input denotes after the call the value it denoted before;
    the result denotes what the function over values returns, and all its
    dicts and lists lie at locations the store did not have before the
    call. *)
Theorem C10_input_left_unchanged (fake : Faker)
    (items : list (string * pyvalue)) (input_data : Heap.hval)
    (w : Heap.hworld fake) (fuel : nat) :
  Heap.repr (Heap.heap w) input_data (PyDict items) ->
  2 * Heap.depth (PyDict items) < fuel ->
  exists new w' out,
    Heap.randomize_json_schema fuel input_data w
      = Some (Ok (Heap.HRef new), w') /\
    (forall l o, Heap.heap w !! l = Some o -> Heap.heap w' !! l = Some o) /\
    Heap.repr (Heap.heap w') input_data (PyDict items) /\
    randomize_json_schema (PyDict items) (Heap.pure_world w)
      = (Ok out, Heap.pure_world w') /\
    Heap.repr_from (length (Heap.heap w)) (Heap.heap w') (Heap.HRef new) out.
Proof.
  intros Hr Hfuel. destruct fuel as [|fuel]; [lia|].
  destruct (randomize_json_schema_simulates fuel items) with
    (x := input_data) (w := w) as (new & w' & d' & E & P & Pre & R).
  - cbn in Hfuel. apply depth_entries_lt in Hfuel.
    rewrite Forall_forall in Hfuel |- *. intros kv Hkv.
    apply randomize_value_simulates. specialize (Hfuel kv Hkv).
    cbn beta in Hfuel. lia.
  - exact Hr.
  - exists new, w', (PyDict d').
    split; [exact E|]. split; [|split; [|split; [exact P | exact R]]].
    + intros l o Hl. eapply prefix_lookup_Some; eassumption.
    + eapply repr_from_prefix; eassumption.
Qed.

Lemma C10_input_left_unchanged_witness :
  Heap.repr (Heap.heap sample_hworld) (Heap.HRef 0) (PyDict sample_value) /\
  2 * Heap.depth (PyDict sample_value) < 5 /\
  exists new w' out,
    Heap.randomize_json_schema 5 (Heap.HRef 0) sample_hworld
      = Some (Ok (Heap.HRef new), w') /\
    (forall l o, Heap.heap sample_hworld !! l = Some o ->
                 Heap.heap w' !! l = Some o) /\
    Heap.repr (Heap.heap w') (Heap.HRef 0) (PyDict sample_value) /\
    randomize_json_schema (PyDict sample_value) (Heap.pure_world sample_hworld)
      = (Ok out, Heap.pure_world w') /\
    Heap.repr_from (length (Heap.heap sample_hworld)) (Heap.heap w')
      (Heap.HRef new) out.
Proof.
  split; [exact sample_store_repr|]. split; [cbn; lia|].
  apply (C10_input_left_unchanged (scripted "lorem") sample_value
           (Heap.HRef 0) sample_hworld 5).
  - exact sample_store_repr.
  - cbn. lia.
Defined.

(** The sample store after the call: locations 0 and 1 as before, the new
    dict at 2 and its new list at 3. *)
Example heap_sample_run :
  Heap.randomize_json_schema 5 (Heap.HRef 0) sample_hworld
  = Some (Ok (Heap.HRef 2),
          Heap.HWorld (fake := scripted "lorem") [] []
            (sample_store ++
             [Heap.HDict [("k1", Heap.HRef 3); ("k2", Heap.HInt 7)];
              Heap.HList [Heap.HInt 7; Heap.HStr "w1"]])).
Proof. reflexivity. Qed.

(** ** JSON with a provider that never repeats a word

    The loss of entries seen above comes from repeated keys alone: when the
    provider never hands out a word twice, every assignment of the loop
    appends, and the output has the shape of the input. *)

Section NeverRepeats.
Context {fake : Faker}.
Hypothesis Hfresh : never_repeats fake.

Lemma drawn_before_later (g g' : gen fake) k :
  drawn_before g k -> after g g' -> drawn_before g' k.
Proof.
  intros (g0 & Hk & Ha) Hg. exists g0. split; [assumption|].
  eapply after_trans; eassumption.
Qed.

Lemma fresh_key_is_new (g : gen fake) (acc : list (string * pyvalue)) :
  Forall (drawn_before g) (dict_keys acc) ->
  ~ In (fst (word fake g)) (dict_keys acc).
Proof.
  intros Hall Hin. rewrite Forall_forall in Hall.
  destruct (Hall _ (proj2 (list_elem_of_In _ _) Hin)) as (g0 & Hk & Ha).
  apply (Hfresh g0 g Ha). exact Hk.
Qed.

Lemma items_loop_appends (R : pyvalue -> pyvalue -> Prop) f items :
  Forall (fun kv => forall g0, returns g0 R f (snd kv)) items ->
  forall acc w,
    Forall (drawn_before (rng w)) (dict_keys acc) ->
    exists kvs w',
      items_loop f items acc w = (Ok (acc ++ kvs), w') /\
      after (rng w) (rng w') /\ log w' = log w /\
      Forall2 (fun a b => R (snd a) (snd b)) items kvs.
Proof.
  induction 1 as [|[k0 v0] items Hx _ IH]; intros acc w Hacc.
  - exists [], w. rewrite app_nil_r.
    split; [reflexivity|]. split; [constructor|]. split; [reflexivity|].
    constructor.
  - destruct (Hx (rng w) w (after_refl _)) as (y & w1 & E1 & A1 & L1 & R1).
    cbn in E1. pose proof (draw_ok (word fake) w1) as E2.
    set (k := fst (word fake (rng w1))) in *.
    set (w2 := World (snd (word fake (rng w1))) (log w1)) in *.
    assert (Hacc1 : Forall (drawn_before (rng w1)) (dict_keys acc)).
    { eapply Forall_impl; [exact Hacc|]. intros k' Hk'.
      eapply drawn_before_later; eassumption. }
    assert (Hnew : dict_set k y acc = acc ++ [(k, y)]).
    { apply dict_set_new. now apply fresh_key_is_new. }
    destruct (IH (acc ++ [(k, y)]) w2) as (kvs & w3 & E3 & A3 & L3 & R3).
    { unfold dict_keys. rewrite map_app. apply Forall_app. split.
      - eapply Forall_impl; [exact Hacc1|]. intros k' Hk'.
        eapply drawn_before_later; [exact Hk'|]. cbn.
        apply after_word, after_refl.
      - constructor; [|constructor]. cbn. exists (rng w1).
        split; [reflexivity | apply after_refl]. }
    exists ((k, y) :: kvs), w3. cbn.
    rewrite (bind_ok _ _ _ _ _ E1). unfold fake_word.
    rewrite (bind_ok _ _ _ _ _ E2). fold k. rewrite Hnew.
    rewrite <- app_assoc in E3. cbn in E3.
    split; [exact E3|]. split; [|split].
    + eapply after_trans; [exact A1|].
      eapply after_trans; [|exact A3]. cbn. apply after_word, after_refl.
    + cbn in L3. congruence.
    + constructor; [exact R1 | exact R3].
Qed.

Lemma shape_of_related_list (l l' : list pyvalue) :
  Forall2 (fun v v' => shape_of v' = shape_of v) l l' ->
  map shape_of l' = map shape_of l.
Proof. induction 1; cbn; [reflexivity | congruence]. Qed.

Lemma shape_of_related_entries (d d' : list (string * pyvalue)) :
  Forall2 (fun a b => shape_of (snd b) = shape_of (snd a)) d d' ->
  map (fun kv => shape_of (snd kv)) d' = map (fun kv => shape_of (snd kv)) d.
Proof. induction 1; cbn; [reflexivity | congruence]. Qed.

Lemma randomize_value_keeps_shape (v : pyvalue) : keeps_shape v.
Proof.
  induction v as [s|n|f|b| |l IH|d IH] using pyvalue_nested_ind;
    intros g0 w Hw.
  - cbn. unfold fake_word. rewrite (bind_ok _ _ _ _ _ (draw_ok _ w)).
    eexists _, _. split; [reflexivity|]. cbn.
    split; [now constructor|]. split; reflexivity.
  - cbn. unfold fake_random_int. rewrite (bind_ok _ _ _ _ _ (draw_ok _ w)).
    eexists _, _. split; [reflexivity|]. cbn.
    split; [now constructor|]. split; reflexivity.
  - cbn. unfold fake_pyfloat. rewrite (bind_ok _ _ _ _ _ (draw_ok _ w)).
    eexists _, _. split; [reflexivity|]. cbn.
    split; [now constructor|]. split; reflexivity.
  - cbn. unfold fake_random_int. rewrite (bind_ok _ _ _ _ _ (draw_ok _ w)).
    eexists _, _. split; [reflexivity|]. cbn.
    split; [now constructor|]. split; reflexivity.
  - cbn. exists PyNone, w. split; [reflexivity|].
    split; [assumption|]. split; reflexivity.
  - destruct (comprehension_returns g0
                (fun v v' => shape_of v' = shape_of v) randomize_value l)
      with (w := w) as (ys & w' & E & A & L & R).
    { eapply Forall_impl; [exact IH|]. intros v Hv. apply Hv. }
    { assumption. }
    exists (PyList ys), w'. cbn. rewrite (bind_ok _ _ _ _ _ E).
    split; [reflexivity|]. split; [assumption|]. split; [assumption|].
    cbn. f_equal. now apply shape_of_related_list.
  - destruct (items_loop_appends
                (fun v v' => shape_of v' = shape_of v) randomize_value d IH
                [] w) as (kvs & w' & E & A & L & R).
    { constructor. }
    exists (PyDict kvs), w'. cbn. cbn in E. rewrite (bind_ok _ _ _ _ _ E).
    split; [reflexivity|]. split; [|split; [assumption|]].
    + eapply after_trans; eassumption.
    + cbn. f_equal. now apply shape_of_related_entries.
Qed.
End NeverRepeats.

Lemma lookup_map_related {A B} (f : A -> B) (l l' : list A) i x :
  map f l' = map f l -> l !! i = Some x ->
  exists x', l' !! i = Some x' /\ f x' = f x.
Proof.
  revert l' i. induction l as [|a l IH]; intros [|a' l'] i Hm Hl;
    try discriminate.
  cbn in Hm. injection Hm as Ha Hm. destruct i as [|i]; cbn in *.
  - injection Hl as <-. eauto.
  - now apply IH.
Qed.

(** Values of one shape hold lists of equal length at the same places. *)
Lemma at_path_same_shape (p : list nat) :
  forall v v' l,
    shape_of v' = shape_of v ->
    at_path p v = Some (PyList l) ->
    exists l', at_path p v' = Some (PyList l') /\ length l' = length l.
Proof.
  induction p as [|i p IH]; intros v v' l Hs Hp.
  - cbn in Hp. injection Hp as ->. destruct v'; try discriminate.
    cbn in Hs. injection Hs as Hs. eexists. split; [reflexivity|].
    apply (f_equal (@length shape)) in Hs. now rewrite !length_map in Hs.
  - destruct v as [| | | | |items|items]; try discriminate.
    + destruct v'; try discriminate. cbn in Hs. injection Hs as Hs.
      cbn in Hp |- *. destruct (items !! i) as [x|] eqn:Hi; [|discriminate].
      destruct (lookup_map_related _ _ _ _ _ Hs Hi) as (x' & -> & Hx).
      now apply (IH x x').
    + destruct v'; try discriminate. cbn in Hs. injection Hs as Hs.
      cbn in Hp |- *. destruct (items !! i) as [x|] eqn:Hi; [|discriminate].
      destruct (lookup_map_related _ _ _ _ _ Hs Hi) as (x' & -> & Hx).
      now apply (IH (snd x) (snd x')).
Qed.

Lemma after_counting (g g' : gen counting) : after g g' -> (g <= g')%nat.
Proof. induction 1; cbn in *; lia. Qed.

Lemma letters_length (n : nat) : String.length (letters n) = n.
Proof. induction n; cbn; congruence. Qed.

Lemma counting_never_repeats : never_repeats counting.
Proof.
  intros g g' Ha Heq. apply after_counting in Ha. cbn in *.
  apply (f_equal String.length) in Heq. rewrite !letters_length in Heq. lia.
Qed.

(** With a provider that never repeats a word, [randomize_json_schema]
    keeps the shape of a mapping: the number of top-level keys, and at
    every place of a list a list of the same length. *)
Theorem json_shape_kept_without_repeats (fake : Faker)
    (items : list (string * pyvalue)) (w : world fake) :
  never_repeats fake ->
  exists out w',
    randomize_json_schema (PyDict items) w = (Ok out, w') /\
    shape_of out = shape_of (PyDict items) /\
    key_count out = key_count (PyDict items) /\
    forall p l, at_path p (PyDict items) = Some (PyList l) ->
      exists l', at_path p out = Some (PyList l') /\ length l' = length l.
Proof.
  intros Hfresh.
  destruct (randomize_value_keeps_shape Hfresh (PyDict items) (rng w) w)
    as (out & w' & E & _ & _ & Hs); [constructor|].
  rewrite randomize_value_dict in E.
  exists out, w'. split; [exact E|]. split; [exact Hs|]. split.
  - destruct out; try discriminate. cbn in Hs |- *. injection Hs as Hs.
    apply (f_equal (@length shape)) in Hs. now rewrite !length_map in Hs.
  - intros p l Hp. eapply at_path_same_shape; eassumption.
Qed.

Lemma json_shape_kept_without_repeats_witness :
  never_repeats counting /\
  exists out w',
    randomize_json_schema (fake := counting) (PyDict sample_value)
      (World (fake := counting) 0 []) = (Ok out, w') /\
    shape_of out = shape_of (PyDict sample_value) /\
    key_count out = key_count (PyDict sample_value) /\
    forall p l, at_path p (PyDict sample_value) = Some (PyList l) ->
      exists l', at_path p out = Some (PyList l') /\ length l' = length l.
Proof.
  split; [exact counting_never_repeats|].
  apply (json_shape_kept_without_repeats counting sample_value
           (World (fake := counting) 0 [])).
  exact counting_never_repeats.
Defined.

(** A second application to the output of a first returns: the first output
    is a mapping, whatever the provider draws. *)
Theorem json_second_application_returns (fake : Faker)
    (items : list (string * pyvalue)) (w w2 : world fake) :
  exists d1 w1 d2 w3,
    randomize_json_schema (PyDict items) w = (Ok (PyDict d1), w1) /\
    randomize_json_schema (PyDict d1) w2 = (Ok (PyDict d2), w3) /\
    log w1 = log w /\ log w3 = log w2.
Proof.
  destruct (randomize_json_schema_returns items w) as (kvs1 & w1 & E1 & L1 & _).
  destruct (randomize_json_schema_returns (dict_update [] kvs1) w2)
    as (kvs2 & w3 & E2 & L2 & _).
  eexists _, w1, _, w3. repeat split; eassumption.
Qed.

Lemma text_rule_element_count (fake : Faker) (g0 : gen fake) (e : Element) :
  forall e', text_rule g0 e e' -> element_count e' = element_count e.
Proof.
  induction e as [t a x tl cs IH] using Element_nested_ind.
  intros [t' a' x' tl' cs'] R. inversion R as [? ? _ _ Hcs]; subst.
  cbn in Hcs |- *. f_equal. f_equal. clear R. revert IH.
  induction Hcs as [|c c' cs cs' Hc Hcs IHcs]; intros IH; [reflexivity|].
  inversion IH as [|? ? IHc IHrest]; subst. cbn. f_equal; auto.
Qed.

(** [randomize_element] keeps the number of elements of the tree. *)
Theorem xml_element_count_kept (fake : Faker) (root : Element)
    (w : world fake) :
  exists root' w',
    randomize_element root w = (Ok root', w') /\
    element_count root' = element_count root.
Proof.
  destruct (randomize_element_returns (rng w) root w)
    as (root' & w' & E & _ & _ & R); [constructor|].
  exists root', w'. split; [exact E|].
  eapply text_rule_element_count, R.
Qed.

(** ** When the randomizers raise *)

Section Raises.
Context {fake : Faker}.

Lemma randomize_json_schema_raise_inv v (w : world fake) e w' :
  randomize_json_schema v w = (Raise e, w') ->
  isinstance v Tdict = false /\
  e = TypeError "Input data must be a dictionary for JSON format." /\
  w' = World (rng w)
         (log w ++ [(ERROR, "Input data must be a dictionary for JSON format.")]).
Proof.
  intros H. destruct v as [s|n|f|b| |l|items];
    try (cbn in H; injection H as <- <-; repeat split; reflexivity).
  destruct (randomize_json_schema_returns items w) as (kvs & w1 & E & _).
  rewrite E in H. discriminate.
Qed.

Lemma randomize_xml_schema_raise_inv fromstring tostring input
    (w : world fake) e w' :
  randomize_xml_schema fromstring tostring input w = (Raise e, w') ->
  exists msg,
    fromstring input = inl msg /\ e = ParseError msg /\
    w' = World (rng w) (log w ++ [(ERROR, "Error parsing XML: " ++ msg)%string]).
Proof.
  unfold randomize_xml_schema. intros H.
  destruct (fromstring input) as [msg|root].
  - cbn in H. injection H as <- <-. exists msg. repeat split; reflexivity.
  - destruct (randomize_element_returns (rng w) root w)
      as (root' & w1 & E & _); [constructor|].
    rewrite (bind_ok _ _ _ _ _ E) in H. discriminate.
Qed.

Lemma randomize_csv_schema_returns reader input (w : world fake) :
  exists out w', randomize_csv_schema reader input w = (Ok out, w').
Proof.
  unfold randomize_csv_schema. destruct (reader input) as [|header rest].
  - eexists _, _. reflexivity.
  - destruct (randomize_row_returns (rng w) header w)
      as (h & w1 & E1 & A1 & _); [constructor|].
    destruct (rows_loop_returns (rng w) rest [h] w1 A1)
      as (rs & w2 & E2 & _).
    rewrite (bind_ok _ _ _ _ _ E1), (bind_ok _ _ _ _ _ E2).
    eexists _, _. reflexivity.
Qed.
End Raises.

(** [randomize_xml_schema] raises exactly when the parser refuses the
    input: it then logs the parser's message and lets the [ParseError]
    through, without a draw; on well-formed input it returns. *)
Theorem xml_raises_iff_parse_fails (fake : Faker)
    (ET_fromstring : string -> string + Element)
    (ET_tostring : Element -> string) (input_xml : string) (w : world fake) :
  (forall msg, ET_fromstring input_xml = inl msg ->
     randomize_xml_schema ET_fromstring ET_tostring input_xml w
     = (Raise (ParseError msg),
        World (rng w) (log w ++ [(ERROR, "Error parsing XML: " ++ msg)%string])))
  /\ (forall root, ET_fromstring input_xml = inr root ->
        exists out w',
          randomize_xml_schema ET_fromstring ET_tostring input_xml w
          = (Ok out, w') /\ log w' = log w).
Proof.
  split.
  - intros msg H. unfold randomize_xml_schema. rewrite H. reflexivity.
  - intros root H. unfold randomize_xml_schema. rewrite H.
    destruct (randomize_element_returns (rng w) root w)
      as (root' & w1 & E & _ & L & _); [constructor|].
    rewrite (bind_ok _ _ _ _ _ E). eexists _, _. split; [reflexivity|exact L].
Qed.

(** ** [process_data]: what reaches the files and the standard output *)

Section ProcFacts.
Context {fake : Faker}.

Lemma same_io_refl (m : machine fake) : same_io m m.
Proof. split; reflexivity. Qed.

Lemma same_io_trans (m1 m2 m3 : machine fake) :
  same_io m1 m2 -> same_io m2 m3 -> same_io m1 m3.
Proof. intros [F1 S1] [F2 S2]. split; congruence. Qed.

Lemma quiet_ret {A} (a : A) : quiet (Proc.ret a).
Proof. intros m r m' H. injection H as <- <-. apply same_io_refl. Qed.

Lemma quiet_throw {A} e : quiet (@Proc.throw fake A e).
Proof. intros m r m' H. injection H as <- <-. apply same_io_refl. Qed.

Lemma quiet_lift {A} (c : M A) : quiet (Proc.lift c).
Proof.
  intros m r m' H. unfold Proc.lift in H.
  destruct (c (mworld m)) as [[a|e] w']; injection H as <- <-;
    split; reflexivity.
Qed.


Lemma read_text_same path (m m' : machine fake) r :
  Proc.read_text path m = (r, m') -> m' = m.
Proof.
  unfold Proc.read_text.
  destruct (files m path) as [[c|why|why|c|]|]; intros H;
    now injection H as <- <-.
Qed.


Lemma quiet_bind {A B} (c : Proc.PM A) (k : A -> Proc.PM B) :
  quiet c -> (forall a, quiet (k a)) -> quiet (Proc.bind c k).
Proof.
  intros Hc Hk m r m' H. unfold Proc.bind in H.
  destruct (c m) as [[a|e] m1] eqn:E.
  - eapply same_io_trans; [eapply Hc, E | eapply Hk, H].
  - injection H as <- <-. eapply Hc, E.
Qed.





Context {lib : Library}.

Lemma quiet_transform self data : quiet (transform self data).
Proof.
  unfold transform, dispatch.
  destruct (String.eqb (data_format self) "json").
  - apply quiet_bind.
    + destruct (json_loads data); [apply quiet_throw | apply quiet_ret].
    + intros v. apply quiet_bind; [apply quiet_lift|].
      intros d. apply quiet_ret.
  - destruct (String.eqb (data_format self) "xml"); [apply quiet_lift|].
    destruct (String.eqb (data_format self) "csv"); [|apply quiet_throw].
    destruct (csv_reader data); [apply quiet_throw | apply quiet_lift].
Qed.




End ProcFacts.


Section ProcCases.
Context {fake : Faker} {lib : Library}.

Lemma lift_throw_inv {A} (c : M A) (m m' : machine fake) e :
  Proc.lift c m = (Throw e, m') ->
  exists e0 w', c (mworld m) = (Raise e0, w') /\ e = Randomizer e0 /\
                m' = Machine w' (files m) (stdout m).
Proof.
  unfold Proc.lift. destruct (c (mworld m)) as [[a|e0] w']; intros H;
    [discriminate|]. injection H as <- <-. eauto.
Qed.

Lemma lift_return_inv {A} (c : M A) (m m' : machine fake) a :
  Proc.lift c m = (Return a, m') ->
  exists w', c (mworld m) = (Ok a, w') /\
             m' = Machine w' (files m) (stdout m).
Proof.
  unfold Proc.lift. destruct (c (mworld m)) as [[a0|e0] w']; intros H;
    [|discriminate]. injection H as <- <-. eauto.
Qed.

Lemma handler_throws (pre1 pre2 : string) (test : pyexn -> bool) e0
    (m m' : machine fake) (r : outcome unit) :
  (if test e0
   then Proc.bind (Proc.logging ERROR (pre1 ++ str_pyexn e0))
          (fun _ => Proc.throw e0)
   else Proc.bind (Proc.logging ERROR (pre2 ++ str_pyexn e0))
          (fun _ => Proc.throw e0)) m = (r, m') ->
  r = Throw e0.
Proof. destruct (test e0); cbn; intros H; now injection H as <- <-. Qed.
End ProcCases.

Lemma init_format_supported (fake : Faker) (locales : FakerLocales fake)
    format i o l (w w' : world fake) self :
  init format i o l w = (Ok self, w') ->
  data_format self = lower format /\
  (data_format self = "json" \/ data_format self = "xml" \/
   data_format self = "csv").
Proof.
  rewrite init_cases. destruct (Faker_new l) as [msg|g]; [discriminate|].
  destruct (str_in (lower format) ["json"; "xml"; "csv"]) eqn:E;
    [|discriminate].
  intros H. injection H as <- <-. cbn [data_format]. split; [reflexivity|].
  unfold str_in in E. cbn in E.
  destruct (String.eqb_spec (lower format) "json") as [->|_]; [now left|].
  destruct (String.eqb_spec (lower format) "xml") as [->|_];
    [right; now left|].
  destruct (String.eqb_spec (lower format) "csv") as [->|_];
    [right; now right|].
  discriminate.
Qed.

(** The format of an object that the constructor has returned is one of
    json, xml and csv.  So the chain of tests on [self.data_format] in
    [process_data] always takes one of its three format branches: what it
    gives does not depend on its [else] branch, the one that raises the
    error of an unsupported format. *)
Theorem process_data_else_branch_dead (fake : Faker)
    (locales : FakerLocales fake) (format : string)
    (input output : option string) (loc : string)
    (w w' : world fake) (self : DataSchemaRandomizer) :
  init format input output loc w = (Ok self, w') ->
  (data_format self = "json" \/ data_format self = "xml" \/
   data_format self = "csv") /\
  forall (A : Type) (on_json on_xml on_csv otherwise otherwise' : A),
    dispatch self on_json on_xml on_csv otherwise
    = dispatch self on_json on_xml on_csv otherwise'.
Proof.
  intros H. destruct (init_format_supported _ _ _ _ _ _ _ _ _ H) as [_ Hf].
  split; [exact Hf|]. intros A j x c o o'. unfold dispatch.
  destruct Hf as [Hf|[Hf|Hf]]; rewrite Hf; reflexivity.
Qed.

Lemma process_data_else_branch_dead_witness :
  init (locales := two_locales []) "JSON" (Some "in.json") None "en_US"
    (script ["old"]) = (Ok json_to_console, script []) /\
  (data_format json_to_console = "json" \/ data_format json_to_console = "xml" \/
   data_format json_to_console = "csv") /\
  forall (A : Type) (on_json on_xml on_csv otherwise otherwise' : A),
    dispatch json_to_console on_json on_xml on_csv otherwise
    = dispatch json_to_console on_json on_xml on_csv otherwise'.
Proof.
  split; [reflexivity|].
  apply (process_data_else_branch_dead (scripted "lorem") (two_locales [])
           "JSON" (Some "in.json") None "en_US" (script ["old"]) (script [])
           json_to_console).
  reflexivity.
Defined.


Section ProcReturns.
Context {fake : Faker} {lib : Library}.

Lemma emit_return_inv self out (m m' : machine fake) :
  emit self out m = (Return tt, m') -> emitted self out m m'.
Proof.
  unfold emit, emitted.
  destruct (output_file self) as [p|] eqn:Hout; cbn [truthy].
  - destruct (negb (String.eqb p "")).
    + unfold Proc.bind, Proc.write_text.
      destruct (files m p) as [[c|why|why|c|]|]; cbn; intros H;
        try discriminate; injection H as <-; exists p; cbn;
        rewrite String.eqb_refl; (split; [reflexivity|]);
        (split; [reflexivity|]); (split; [|reflexivity]);
        intros q Hq; now apply String.eqb_neq in Hq as ->.
    + cbn. intros H. injection H as <-. split; reflexivity.
  - cbn. intros H. injection H as <-. split; reflexivity.
Qed.

Lemma transform_return_inv self data (m m' : machine fake) out :
  transform self data m = (Return out, m') ->
  same_io m m' /\ accepted self data.
Proof.
  intros H. split; [exact (quiet_transform self data m _ m' H)|].
  unfold transform, dispatch, accepted in *.
  destruct (String.eqb_spec (data_format self) "json") as [Hj|Hj].
  - left. split; [assumption|]. unfold Proc.bind in H.
    destruct (json_loads data) as [e|v]; [discriminate|]. cbn in H.
    destruct (Proc.lift (randomize_json_schema v) m) as [[d|e] m1] eqn:E;
      [|discriminate].
    apply lift_return_inv in E as (w1 & E & _).
    destruct v as [s|n|f|b| |l|items]; try (cbn in E; discriminate).
    eauto.
  - destruct (String.eqb_spec (data_format self) "xml") as [Hx|Hx].
    + right. left. split; [assumption|].
      apply lift_return_inv in H as (w1 & E & _).
      unfold randomize_xml_schema in E.
      destruct (xml_fromstring data) as [msg|root]; [discriminate|]. eauto.
    + destruct (String.eqb_spec (data_format self) "csv") as [Hc|Hc];
        [|discriminate].
      right. right. split; [assumption|].
      destruct (csv_reader data) as [e|rows]; [discriminate|]. eauto.
Qed.
End ProcReturns.

Section ProcMain.
Context {fake : Faker} {lib : Library}.

Lemma process_data_no_input self (m : machine fake) :
  truthy (input_file self) = false ->
  process_data self m
  = (Throw (Randomizer (ValueError "Input file is required.")),
     Machine (World (rng (mworld m))
                (log (mworld m) ++ [(ERROR, "Input file is required.")]))
       (files m) (stdout m)).
Proof. intros H. unfold process_data. rewrite H. reflexivity. Qed.

(** The run of [process_data] up to the end of the read. *)
Lemma process_data_read self path (m : machine fake) :
  input_file self = Some path -> path <> "" ->
  process_data self m
  = match Proc.read_text path m with
    | (Return data, _) =>
        match Proc.bind (transform self data) (emit self) m with
        | (Return a, m') => (Return a, m')
        | (Throw e, m') =>
            (Throw e,
             Machine (World (rng (mworld m'))
                        (log (mworld m') ++
                         [(ERROR,
                           ((if is_JSONDecodeError e
                             then "Error decoding JSON: "
                             else "Error processing data: ")
                            ++ str_pyexn e)%string)]))
               (files m') (stdout m'))
        end
    | (Throw e, _) =>
        (Throw (if is_FileNotFoundError e
                then FileNotFoundError ("File not found: " ++ path)
                else e),
         Machine (World (rng (mworld m))
                    (log (mworld m) ++
                     [(ERROR,
                       (if is_FileNotFoundError e
                        then "File not found: " ++ path
                        else "Error reading file: " ++ str_pyexn e)%string)]))
           (files m) (stdout m))
    end.
Proof.
  intros Hin Hne. unfold process_data. rewrite Hin.
  assert (Ht : truthy (Some path) = true).
  { cbn. now destruct (String.eqb_spec path ""). }
  rewrite Ht. cbn [negb].
  unfold Proc.bind at 1. unfold Proc.try_except at 1.
  destruct (Proc.read_text path m) as [[data|e] m1] eqn:E;
    apply read_text_same in E as ->.
  - unfold Proc.try_except.
    destruct (Proc.bind (transform self data) _ m) as [[a|e] m1];
      [reflexivity|].
    now destruct (is_JSONDecodeError e).
  - now destruct (is_FileNotFoundError e).
Qed.

Lemma read_text_return_inv path (m m' : machine fake) data :
  Proc.read_text path m = (Return data, m') -> holds_text m path data.
Proof.
  unfold Proc.read_text, holds_text.
  destruct (files m path) as [[c|why|why|c|]|]; intros H;
    try discriminate; injection H as <- _; auto.
Qed.

(** What has happened when [process_data] returns. *)
Lemma process_data_return_inv self (m m' : machine fake) :
  process_data self m = (Return tt, m') ->
  exists path data out m1,
    input_file self = Some path /\ path <> "" /\
    holds_text m path data /\ accepted self data /\
    transform self data m = (Return out, m1) /\
    emitted self out m m'.
Proof.
  intros H.
  destruct (truthy (input_file self)) eqn:Ht.
  2:{ rewrite (process_data_no_input self m Ht) in H. discriminate. }
  destruct (input_file self) as [path|] eqn:Hin; [|discriminate].
  assert (Hne : path <> "").
  { intros ->. discriminate. }
  rewrite (process_data_read self path m Hin Hne) in H.
  destruct (Proc.read_text path m) as [[data|e] m0] eqn:Er; [|discriminate].
  apply read_text_return_inv in Er.
  unfold Proc.bind in H.
  destruct (transform self data m) as [[out|e] m1] eqn:Et; [|discriminate].
  destruct (emit self out m1) as [[[]|e] m2] eqn:Ee; [|discriminate].
  injection H as <-.
  destruct (transform_return_inv self data m m1 out Et) as [[Hfs Hso] Hacc].
  apply emit_return_inv in Ee.
  exists path, data, out, m1.
  split; [reflexivity|]. split; [assumption|]. split; [assumption|].
  split; [assumption|]. split; [exact Et|].
  unfold emitted in *. destruct (truthy (output_file self)).
  - destruct Ee as (p & Hp & Hfp & Hoth & Hs). exists p.
    rewrite <- Hfs, <- Hso. auto.
  - rewrite <- Hfs, <- Hso. exact Ee.
Qed.
End ProcMain.

(** [process_data] returns only if the object has an input path, not the
    empty one, that holds a readable text, and the text is one that the
    randomizer of the object's format takes: JSON that decodes to a
    mapping, XML that parses, CSV that the reader reads. *)
Theorem process_data_returns_only_if (fake : Faker) (lib : Library)
    (self : DataSchemaRandomizer) (m m' : machine fake) :
  process_data self m = (Return tt, m') ->
  exists path data,
    input_file self = Some path /\ path <> "" /\
    holds_text m path data /\ accepted self data.
Proof.
  intros H.
  destruct (process_data_return_inv self m m' H)
    as (path & data & out & m1 & H1 & H2 & H3 & H4 & _).
  exists path, data. auto.
Qed.

Lemma process_data_returns_only_if_witness :
  process_data (lib := sample_library) json_to_console sample_machine
  = (Return tt, sample_machine_printed) /\
  exists path data,
    input_file json_to_console = Some path /\ path <> "" /\
    holds_text sample_machine path data /\
    accepted (lib := sample_library) json_to_console data.
Proof.
  split; [reflexivity|].
  apply (process_data_returns_only_if (scripted "lorem") sample_library
           json_to_console sample_machine sample_machine_printed).
  reflexivity.
Defined.



(** The errors of [process_data] about its input file.  Without an input
    path, or with the empty path, it raises [ValueError]; on a path that
    holds nothing it raises a [FileNotFoundError] of its own, with the path
    in the message; on a path that [open] refuses it lets the error
    through.  Each time it logs one error, draws nothing and leaves the
    files and the standard output alone. *)
Theorem process_data_input_errors (fake : Faker) (lib : Library)
    (self : DataSchemaRandomizer) (m : machine fake) :
  let logged msg :=
    Machine (World (rng (mworld m)) (log (mworld m) ++ [(ERROR, msg)]))
      (files m) (stdout m) in
  (truthy (input_file self) = false ->
   process_data self m
   = (Throw (Randomizer (ValueError "Input file is required.")),
      logged "Input file is required.")) /\
  (forall path, input_file self = Some path -> path <> "" ->
     files m path = None ->
     process_data self m
     = (Throw (FileNotFoundError ("File not found: " ++ path)),
        logged ("File not found: " ++ path)%string)) /\
  (forall path why, input_file self = Some path -> path <> "" ->
     files m path = Some (Unreadable why) ->
     process_data self m
     = (Throw (OSError why), logged ("Error reading file: " ++ why)%string)).
Proof.
  cbv zeta. split; [|split].
  - apply process_data_no_input.
  - intros path Hin Hne Hf.
    rewrite (process_data_read self path m Hin Hne). unfold Proc.read_text.
    rewrite Hf. reflexivity.
  - intros path why Hin Hne Hf.
    rewrite (process_data_read self path m Hin Hne). unfold Proc.read_text.
    rewrite Hf. reflexivity.
Qed.

(** The errors of [process_data] about the text of the input file.  JSON
    that does not decode is logged once and the [JSONDecodeError] goes on;
    JSON that is no mapping and XML that does not parse are logged twice,
    by the randomizer and by [process_data], and the [TypeError] or
    [ParseError] goes on.  Nothing is drawn from the provider. *)
Theorem process_data_text_errors (fake : Faker) (lib : Library)
    (self : DataSchemaRandomizer) (m : machine fake) (path data : string) :
  let logged msgs :=
    Machine (World (rng (mworld m))
               (log (mworld m) ++ map (fun msg => (ERROR, msg)) msgs))
      (files m) (stdout m) in
  input_file self = Some path -> path <> "" ->
  files m path = Some (Readable data) ->
  (forall msg, data_format self = "json" ->
     json_loads data = inl (JSONDecodeError msg) ->
     process_data self m
     = (Throw (JSONDecodeError msg),
        logged [("Error decoding JSON: " ++ msg)%string])) /\
  (forall v, data_format self = "json" -> json_loads data = inr v ->
     isinstance v Tdict = false ->
     process_data self m
     = (Throw (Randomizer
                 (TypeError "Input data must be a dictionary for JSON format.")),
        logged ["Input data must be a dictionary for JSON format.";
                "Error processing data: Input data must be a dictionary for JSON format."])) /\
  (forall msg, data_format self = "xml" -> xml_fromstring data = inl msg ->
     process_data self m
     = (Throw (Randomizer (ParseError msg)),
        logged [("Error parsing XML: " ++ msg)%string;
                ("Error processing data: " ++ msg)%string])).
Proof.
  cbv zeta. intros Hin Hne Hf.
  rewrite (process_data_read self path m Hin Hne). unfold Proc.read_text.
  rewrite Hf.
  unfold Proc.bind, transform, dispatch. split; [|split].
  - intros msg Hj Hl. rewrite Hj, Hl. reflexivity.
  - intros v Hj Hl Hv. rewrite Hj, Hl. cbn.
    unfold Proc.lift, randomize_json_schema. rewrite Hv. cbn.
    rewrite <- app_assoc. reflexivity.
  - intros msg Hx Hp. rewrite Hx. cbn.
    unfold Proc.lift, randomize_xml_schema. rewrite Hp. cbn.
    rewrite <- app_assoc. reflexivity.
Qed.

Lemma process_data_text_errors_witness :
  input_file json_to_console = Some "in.json" /\ "in.json" <> "" /\
  files list_machine "in.json" = Some (Readable "[1]") /\
  process_data (lib := sample_library) json_to_console list_machine
  = (Throw (Randomizer
              (TypeError "Input data must be a dictionary for JSON format.")),
     list_machine_failed).
Proof.
  split; [reflexivity|]. split; [discriminate|]. split; [reflexivity|].
  refine (proj1 (proj2 (process_data_text_errors (scripted "lorem")
            sample_library json_to_console list_machine "in.json" "[1]"
            eq_refl _ eq_refl)) (PyList [PyInt 1]) eq_refl eq_refl eq_refl).
  discriminate.
Defined.


(** A format that [argparse] lets through, one of its [choices], is
    accepted by the constructor as it is, when Faker has the locale: the
    constructor returns the object, and the world has the generator of the
    new provider. *)
Theorem init_accepts_choices (fake : Faker) (locales : FakerLocales fake)
    (format : string) (input_file output_file : option string)
    (locale : string) (g : gen fake) (w : world fake) :
  str_in format ["json"; "xml"; "csv"] = true ->
  Faker_new locale = inr g ->
  init format input_file output_file locale w
  = (Ok {| data_format := format; input_file := input_file;
           output_file := output_file; locale := locale |},
     World g (log w)).
Proof.
  intros H Hg. rewrite init_cases, Hg. unfold str_in in H. cbn in H.
  destruct (String.eqb_spec format "json") as [->|_]; [reflexivity|].
  destruct (String.eqb_spec format "xml") as [->|_]; [reflexivity|].
  destruct (String.eqb_spec format "csv") as [->|_]; [reflexivity|].
  discriminate.
Qed.

Lemma init_accepts_choices_witness :
  str_in "csv" ["json"; "xml"; "csv"] = true /\
  Faker_new (FakerLocales := two_locales ["w"]) "fr_FR" = inr ["w"] /\
  init (locales := two_locales ["w"]) "csv" (Some "in.csv") None "fr_FR"
    (script ["old"])
  = (Ok {| data_format := "csv"; input_file := Some "in.csv";
           output_file := None; locale := "fr_FR" |},
     script ["w"]).
Proof.
  split; [reflexivity|]. split; [reflexivity|].
  apply (init_accepts_choices (scripted "lorem") (two_locales ["w"])
           "csv" (Some "in.csv") None "fr_FR" ["w"] (script ["old"]));
    reflexivity.
Defined.

(** Three runs of [main] on the sample machine: a good command line, a
    format that the parser refuses, and an input file that is not there. *)
Example main_sample_runs :
  main (locales := two_locales ["w1"; "k1"; "k2"]) (lib := sample_library)
    ["json"; "in.json"] sample_machine
  = (Returned, sample_machine_printed) /\
  main (locales := two_locales []) (lib := sample_library)
    ["yaml"; "in.json"] sample_machine
  = (Exited 2, sample_machine) /\
  fst (main (locales := two_locales []) (lib := sample_library)
         ["json"; "nope.json"] sample_machine) = Returned /\
  log (mworld (snd (main (locales := two_locales []) (lib := sample_library)
                      ["json"; "nope.json"] sample_machine)))
  = [(ERROR, "File not found: nope.json");
     (ERROR, "File Not Found Error: File not found: nope.json")].
Proof. repeat split. Qed.

(** ** JSON: where the output comes from *)

Section FromProvider.
Context {fake : Faker}.



End FromProvider.


(** ** XML: tags, attributes and tails *)

Section TagRule.
Context {fake : Faker}.

End TagRule.


(** ** The store, whatever it holds *)

Section Keeps.
Context {fake : Faker}.
Implicit Types (w : Heap.hworld fake).

Lemma keeps_ret {A} (h0 : list Heap.hobj) (a : A) : keeps h0 (Heap.ret a).
Proof. intros w r w' Hp H. injection H as <- <-. exact Hp. Qed.

Lemma keeps_raise {A} (h0 : list Heap.hobj) e : keeps h0 (@Heap.raise fake A e).
Proof. intros w r w' Hp H. injection H as <- <-. exact Hp. Qed.

Lemma keeps_stuck {A} (h0 : list Heap.hobj) : keeps h0 (@Heap.stuck fake A).
Proof. intros w r w' Hp H. discriminate. Qed.

Lemma keeps_draw {A} (h0 : list Heap.hobj) (f : gen fake -> A * gen fake) :
  keeps h0 (Heap.draw f).
Proof.
  intros w r w' Hp H. unfold Heap.draw in H.
  destruct (f (Heap.hrng w)). injection H as <- <-. exact Hp.
Qed.

Lemma keeps_logging (h0 : list Heap.hobj) lv msg : keeps h0 (Heap.logging lv msg).
Proof. intros w r w' Hp H. injection H as <- <-. exact Hp. Qed.

Lemma keeps_load (h0 : list Heap.hobj) l : keeps h0 (Heap.load l).
Proof.
  intros w r w' Hp H. unfold Heap.load in H.
  destruct (Heap.heap w !! l); [|discriminate]. now injection H as <- <-.
Qed.

Lemma keeps_store (h0 : list Heap.hobj) l o : length h0 <= l -> keeps h0 (Heap.store l o).
Proof.
  intros Hl w r w' Hp H. injection H as <- <-. cbn.
  now apply prefix_insert_ge.
Qed.

Lemma keeps_bind {A B} (h0 : list Heap.hobj) (c : Heap.HM A) (k : A -> Heap.HM B) :
  keeps h0 c -> (forall a, keeps h0 (k a)) -> keeps h0 (Heap.bind c k).
Proof.
  intros Hc Hk w r w' Hp H. unfold Heap.bind in H.
  destruct (c w) as [[[a|e] w1]|] eqn:E; [| |discriminate].
  - eapply Hk; [eapply Hc; eassumption | exact H].
  - injection H as <- <-. eapply Hc; eassumption.
Qed.

Lemma keeps_alloc_bind {B} (h0 : list Heap.hobj) o (k : nat -> Heap.HM B) :
  (forall new, length h0 <= new -> keeps h0 (k new)) ->
  keeps h0 (Heap.bind (Heap.alloc o) k).
Proof.
  intros Hk w r w' Hp H. unfold Heap.bind, Heap.alloc in H.
  eapply (Hk (length (Heap.heap w))); [now apply prefix_length | | exact H].
  cbn. now apply prefix_app_r.
Qed.

Lemma keeps_isinstance (h0 : list Heap.hobj) v cls : keeps h0 (Heap.isinstance v cls).
Proof.
  destruct v; try apply keeps_ret.
  apply keeps_bind; [apply keeps_load|]. intros o. apply keeps_ret.
Qed.

Lemma keeps_dict_items (h0 : list Heap.hobj) v : keeps h0 (Heap.dict_items v).
Proof.
  destruct v; try apply keeps_stuck.
  apply keeps_bind; [apply keeps_load|].
  intros [its|d]; [apply keeps_stuck | apply keeps_ret].
Qed.

Lemma keeps_list_items (h0 : list Heap.hobj) v : keeps h0 (Heap.list_items v).
Proof.
  destruct v; try apply keeps_stuck.
  apply keeps_bind; [apply keeps_load|].
  intros [its|d]; [apply keeps_ret | apply keeps_stuck].
Qed.

Lemma keeps_setitem (h0 : list Heap.hobj) new k v :
  length h0 <= new -> keeps h0 (Heap.setitem new k v).
Proof.
  intros Hnew. apply keeps_bind; [apply keeps_load|].
  intros [its|d]; [apply keeps_stuck | now apply keeps_store].
Qed.

Lemma keeps_append (h0 : list Heap.hobj) new v :
  length h0 <= new -> keeps h0 (Heap.append new v).
Proof.
  intros Hnew. apply keeps_bind; [apply keeps_load|].
  intros [its|d]; [now apply keeps_store | apply keeps_stuck].
Qed.

Lemma keeps_items_loop (h0 : list Heap.hobj) rv new items :
  (forall x, keeps h0 (rv x)) -> length h0 <= new ->
  keeps h0 (Heap.items_loop rv new items).
Proof.
  intros Hrv Hnew. induction items as [|[k v] items IH]; cbn.
  - apply keeps_ret.
  - apply keeps_bind; [apply Hrv|]. intros v'.
    apply keeps_bind; [apply keeps_draw|]. intros k'.
    apply keeps_bind; [now apply keeps_setitem|]. intros _. exact IH.
Qed.

Lemma keeps_comprehension (h0 : list Heap.hobj) rv new items :
  (forall x, keeps h0 (rv x)) -> length h0 <= new ->
  keeps h0 (Heap.comprehension rv new items).
Proof.
  intros Hrv Hnew. induction items as [|v items IH]; cbn.
  - apply keeps_ret.
  - apply keeps_bind; [apply Hrv|]. intros v'.
    apply keeps_bind; [now apply keeps_append|]. intros _. exact IH.
Qed.

Lemma keeps_randomize fuel (h0 : list Heap.hobj) :
  (forall x, keeps h0 (Heap.randomize_json_schema fuel x)) /\
  (forall x, keeps h0 (Heap.randomize_value fuel x)).
Proof.
  induction fuel as [|fuel [IHj IHv]]; split; intros x;
    try apply keeps_stuck.
  - cbn [Heap.randomize_json_schema].
    apply keeps_bind; [apply keeps_isinstance|]. intros b.
    destruct (negb b).
    + apply keeps_bind; [apply keeps_logging|]. intros _. apply keeps_raise.
    + apply keeps_alloc_bind. intros new Hnew.
      apply keeps_bind; [apply keeps_dict_items|]. intros items.
      apply keeps_bind; [now apply keeps_items_loop|]. intros _.
      apply keeps_ret.
  - cbn [Heap.randomize_value].
    apply keeps_bind; [apply keeps_isinstance|]. intros [|].
    { apply keeps_bind; [apply keeps_draw|]. intros a. apply keeps_ret. }
    apply keeps_bind; [apply keeps_isinstance|]. intros [|].
    { apply keeps_bind; [apply keeps_draw|]. intros a. apply keeps_ret. }
    apply keeps_bind; [apply keeps_isinstance|]. intros [|].
    { apply keeps_bind; [apply keeps_draw|]. intros a. apply keeps_ret. }
    apply keeps_bind; [apply keeps_isinstance|]. intros [|].
    { apply keeps_bind; [apply keeps_draw|]. intros a. apply keeps_ret. }
    apply keeps_bind; [apply keeps_isinstance|]. intros [|].
    { apply keeps_alloc_bind. intros new Hnew.
      apply keeps_bind; [apply keeps_list_items|]. intros items.
      apply keeps_bind; [now apply keeps_comprehension|]. intros _.
      apply keeps_ret. }
    apply keeps_bind; [apply keeps_isinstance|]. intros [|].
    { apply IHj. }
    apply keeps_ret.
Qed.
End Keeps.

(** Whenever a call of [randomize_json_schema] over the store ends, by a
    return or by its [TypeError], it has changed no object that the store
    held before the call.  The store may hold an object under several
    references, and the input may be no dict.  (On a store with a cycle
    the call does not end here, for any fuel; Python ends it with a
    [RecursionError], which this statement does not cover.) *)
Theorem heap_call_keeps_store (fake : Faker) (fuel : nat)
    (input_data : Heap.hval) (w w' : Heap.hworld fake)
    (r : result Heap.hval) :
  Heap.randomize_json_schema fuel input_data w = Some (r, w') ->
  forall l o, Heap.heap w !! l = Some o -> Heap.heap w' !! l = Some o.
Proof.
  intros H l o Hl.
  eapply prefix_lookup_Some; [exact Hl|].
  eapply (proj1 (keeps_randomize fuel (Heap.heap w))); [reflexivity | exact H].
Qed.

Lemma heap_call_keeps_store_witness :
  Heap.randomize_json_schema 5 (Heap.HRef 0) shared_hworld
  = Some (Ok (Heap.HRef 2), shared_hworld_after) /\
  forall l o, Heap.heap shared_hworld !! l = Some o ->
              Heap.heap shared_hworld_after !! l = Some o.
Proof.
  split; [reflexivity|].
  apply (heap_call_keeps_store (scripted "lorem") 5 (Heap.HRef 0)
           shared_hworld shared_hworld_after (Ok (Heap.HRef 2))).
  reflexivity.
Defined.
